(** * Script Formatter: ownership-scoped CRUD actions

    A shallow embedding of [db/tables.ts] and [src/actions/index.ts].

    - The three tables are lists of rows in storage order.  [select] keeps
      the rows matching the [where] predicate, [update] rewrites them in
      place, [delete] drops them and reports [rowsAffected], [insert]
      appends a row and throws when the primary key is already taken.
      A row that another table [references] cannot be deleted: the
      statement throws and removes nothing.  A row is stored before the
      client reads it back, and reading back a stored integer outside the
      safe range throws.  Text is handed back as stored, which is what the
      client does for text free of NUL characters.
    - A handler is a computation over the world (database plus the trace
      of statements sent to it) that either returns or throws; a throw
      keeps whatever had been written before it.
    - [new Date()] and [crypto.randomUUID()] are read from the ambient
      record passed along with the request context.
    - [defineAction] is the wrapper of [astro:actions]: it parses the
      request with the action's [input] schema and calls the handler on
      the parsed value, so a handler body (and the [requireUser] call that
      opens it) only runs on input that passed the schema. *)

From Stdlib Require Import String Ascii ZArith List Bool Lia.
Import ListNotations.
Open Scope string_scope.
Open Scope list_scope.
Open Scope Z_scope.

(** ** db/tables.ts *)

(** [column.date] values, as milliseconds since the epoch. *)
Definition Date := Z.

Module Scripts.
Record row := {
  id : string;
  userId : string;
  title : string;
  scriptType : option string;
  formatStandard : option string;
  logline : option string;
  status : option string;
  notes : option string;
  createdAt : Date;
  updatedAt : Date
}.
End Scripts.

Module ScriptVersions.
Record row := {
  id : string;
  scriptId : string;
  versionLabel : option string;
  isPreferred : bool;
  rawContent : string;
  formattedContent : option string;
  createdAt : Date
}.
End ScriptVersions.

Module ScriptElements.
(** [orderIndex] holds the integer the schema let through; whether the
    client hands it back is decided by [client_reads] further down. *)
Record row := {
  id : string;
  scriptVersionId : string;
  orderIndex : Z;
  elementType : string;
  characterName : option string;
  content : string;
  createdAt : Date
}.
End ScriptElements.

Record DB := {
  tScripts : list Scripts.row;
  tScriptVersions : list ScriptVersions.row;
  tScriptElements : list ScriptElements.row
}.

Definition emptyDB : DB :=
  {| tScripts := []; tScriptVersions := []; tScriptElements := [] |}.

Inductive TableName := TScripts | TScriptVersions | TScriptElements.

(** A stored integer comes back from the client as a JS number only
    inside the safe range; the client throws on any other stored integer.
    A number of magnitude 2^63 or more does not fit the integer storage
    class: it is kept as a float and comes back as it is. *)
Definition client_reads (z : Z) : bool :=
  (Z.abs z <=? 2 ^ 53 - 1) || (2 ^ 63 <=? Z.abs z).

(** What [defineTable] gives the query builder: the table's rows inside
    the database, its primary-key column, whether a row is named by a
    [references] column of another table, and whether the client can read
    the row back. *)
Record Table (R : Type) := {
  tname : TableName;
  rows : DB -> list R;
  with_rows : list R -> DB -> DB;
  pkey : R -> string;
  referenced : DB -> R -> bool;
  readable : R -> bool
}.
Arguments tname {R}.
Arguments rows {R}.
Arguments with_rows {R}.
Arguments pkey {R}.
Arguments referenced {R}.
Arguments readable {R}.

Definition ScriptsT : Table Scripts.row := {|
  tname := TScripts;
  rows := tScripts;
  with_rows l d := {| tScripts := l;
                      tScriptVersions := tScriptVersions d;
                      tScriptElements := tScriptElements d |};
  pkey := Scripts.id;
  referenced d s :=
    existsb (fun v => (ScriptVersions.scriptId v =? Scripts.id s)%string)
            (tScriptVersions d);
  readable _ := true
|}.

Definition ScriptVersionsT : Table ScriptVersions.row := {|
  tname := TScriptVersions;
  rows := tScriptVersions;
  with_rows l d := {| tScripts := tScripts d;
                      tScriptVersions := l;
                      tScriptElements := tScriptElements d |};
  pkey := ScriptVersions.id;
  referenced d v :=
    existsb (fun e => (ScriptElements.scriptVersionId e =? ScriptVersions.id v)%string)
            (tScriptElements d);
  readable _ := true
|}.

Definition ScriptElementsT : Table ScriptElements.row := {|
  tname := TScriptElements;
  rows := tScriptElements;
  with_rows l d := {| tScripts := tScripts d;
                      tScriptVersions := tScriptVersions d;
                      tScriptElements := l |};
  pkey := ScriptElements.id;
  referenced _ _ := false;
  readable e := client_reads (ScriptElements.orderIndex e)
|}.

(** ** Errors, the world and the handler monad *)

(** UNAUTHORIZED and NOT_FOUND are thrown by the handlers; VALIDATION is
    the input error of [defineAction] when the schema rejects a request;
    INTERNAL_SERVER_ERROR stands for an error thrown by the storage
    engine. *)
Inductive ErrorCode :=
| UNAUTHORIZED
| NOT_FOUND
| VALIDATION
| INTERNAL_SERVER_ERROR.

Record ActionError := { code : ErrorCode; message : string }.

Inductive Statement :=
| Select (t : TableName)
| Insert (t : TableName)
| Update (t : TableName)
| Delete (t : TableName).

Record World := { db : DB; trace : list Statement }.

Definition emptyWorld : World := {| db := emptyDB; trace := [] |}.

Inductive Outcome (A : Type) :=
| Ok (a : A)
| Throw (e : ActionError).
Arguments Ok {A}.
Arguments Throw {A}.

Definition M (A : Type) := World -> Outcome A * World.

Definition ret {A} (a : A) : M A := fun w => (Ok a, w).

Definition throw {A} (e : ActionError) : M A := fun w => (Throw e, w).

Definition bind {A B} (m : M A) (k : A -> M B) : M B :=
  fun w => match m w with
           | (Ok a, w') => k a w'
           | (Throw e, w') => (Throw e, w')
           end.

Notation "x <- m ;; k" := (bind m (fun x => k))
  (at level 61, m at next level, right associativity).
Notation "m ;;; k" := (bind m (fun _ => k))
  (at level 61, right associativity).

(** ** The query builder of astro:db *)

Definition sent (s : Statement) (d : DB) (w : World) : World :=
  {| db := d; trace := trace w ++ [s] |}.

(** The client can read every row of the result back. *)
Definition all_readable {R} (T : Table R) (l : list R) : bool :=
  forallb (readable T) l.

(** A row about to be deleted is still named by another table. *)
Definition any_referenced {R} (T : Table R) (d : DB) (l : list R) : bool :=
  existsb (referenced T d) l.

Arguments all_readable : simpl never.
Arguments any_referenced : simpl never.

Definition unreadable : ActionError :=
  {| code := INTERNAL_SERVER_ERROR;
     message := "Received integer which is too large to be safely represented as a JavaScript number" |}.

Definition constraint_failed : ActionError :=
  {| code := INTERNAL_SERVER_ERROR; message := "UNIQUE constraint failed" |}.

Definition foreign_key_failed : ActionError :=
  {| code := INTERNAL_SERVER_ERROR; message := "FOREIGN KEY constraint failed" |}.

(** [db.select().from(T).where(p)] *)
Definition select {R} (T : Table R) (where_ : R -> bool) : M (list R) :=
  fun w =>
    if all_readable T (filter where_ (rows T (db w)))
    then (Ok (filter where_ (rows T (db w))), sent (Select (tname T)) (db w) w)
    else (Throw unreadable, sent (Select (tname T)) (db w) w).

(** [db.insert(T).values(v).returning()]: the row is stored before the
    client reads it back.  The handlers insert a row only after they have
    resolved the row it references. *)
Definition insert {R} (T : Table R) (v : R) : M (list R) :=
  fun w =>
    if existsb (fun r => pkey T r =? pkey T v)%string (rows T (db w))
    then (Throw constraint_failed, sent (Insert (tname T)) (db w) w)
    else if all_readable T [v]
    then (Ok [v],
          sent (Insert (tname T)) (with_rows T (rows T (db w) ++ [v]) (db w)) w)
    else (Throw unreadable,
          sent (Insert (tname T)) (with_rows T (rows T (db w) ++ [v]) (db w)) w).

(** [db.update(T).set(f).where(p).returning()]: the rows are rewritten
    before the client reads them back. *)
Definition update {R} (T : Table R) (set : R -> R) (where_ : R -> bool)
  : M (list R) :=
  fun w =>
    if all_readable T (map set (filter where_ (rows T (db w))))
    then (Ok (map set (filter where_ (rows T (db w)))),
          sent (Update (tname T))
               (with_rows T (map (fun r => if where_ r then set r else r)
                                 (rows T (db w))) (db w)) w)
    else (Throw unreadable,
          sent (Update (tname T))
               (with_rows T (map (fun r => if where_ r then set r else r)
                                 (rows T (db w))) (db w)) w).

(** [db.delete(T).where(p)], returning [rowsAffected]; nothing is deleted
    when one of the rows is still referenced. *)
Definition delete {R} (T : Table R) (where_ : R -> bool) : M nat :=
  fun w =>
    if any_referenced T (db w) (filter where_ (rows T (db w)))
    then (Throw foreign_key_failed, sent (Delete (tname T)) (db w) w)
    else (Ok (length (filter where_ (rows T (db w)))),
          sent (Delete (tname T))
               (with_rows T (filter (fun r => negb (where_ r)) (rows T (db w)))
                          (db w)) w).

(** The filter combinators [eq(column, value)] and [and(p, q)]. *)
Module Sql.
Definition eq {R} (col : R -> string) (v : string) : R -> bool :=
  fun r => (col r =? v)%string.

Definition eq_bool {R} (col : R -> bool) (v : bool) : R -> bool :=
  fun r => Bool.eqb (col r) v.

Definition and {R} (p q : R -> bool) : R -> bool :=
  fun r => p r && q r.
End Sql.

(** [const [x] = ...]: the first element, [undefined] on an empty array. *)
Definition first {A} (l : list A) : option A := hd_error l.

(** ** Request context *)

Module User.
Record t := { id : string }.
End User.

Record Locals := { user : option User.t }.

Record Context := { locals : option Locals }.

(** The readings of [new Date()] and [crypto.randomUUID()] during a call. *)
Record Ambient := { now : Date; randomUUID : string }.

Definition signedIn (u : string) : Context :=
  {| locals := Some {| user := Some {| User.id := u |} |} |}.

Definition anonymous : Context := {| locals := Some {| user := None |} |}.

(** ** Authorization primitives *)

Definition unauthorized : ActionError :=
  {| code := UNAUTHORIZED;
     message := "You must be signed in to perform this action." |}.

Definition requireUser (context : Context) : M User.t :=
  match locals context with
  | Some l => match user l with
              | Some u => ret u
              | None => throw unauthorized
              end
  | None => throw unauthorized
  end.

Definition script_not_found : ActionError :=
  {| code := NOT_FOUND; message := "Script not found." |}.

Definition version_not_found : ActionError :=
  {| code := NOT_FOUND; message := "Script version not found." |}.

Definition element_not_found : ActionError :=
  {| code := NOT_FOUND; message := "Script element not found." |}.

Definition getOwnedScript (scriptId userId : string) : M Scripts.row :=
  found <- select ScriptsT
             (Sql.and (Sql.eq Scripts.id scriptId) (Sql.eq Scripts.userId userId)) ;;
  match first found with
  | None => throw script_not_found
  | Some script => ret script
  end.

Definition getOwnedVersion (versionId scriptId userId : string)
  : M ScriptVersions.row :=
  getOwnedScript scriptId userId ;;;
  found <- select ScriptVersionsT
             (Sql.and (Sql.eq ScriptVersions.id versionId)
                      (Sql.eq ScriptVersions.scriptId scriptId)) ;;
  match first found with
  | None => throw version_not_found
  | Some version => ret version
  end.

(** ** Input schemas and [defineAction] *)

(** A schema either yields the parsed input or the message of an issue. *)
Definition Parsed (I : Type) := (string + I)%type.

Definition too_short : string := "String must contain at least 1 character(s)".

Definition nothing_to_update : string :=
  "At least one field must be provided to update.".

(** [z.string().min(1)] *)
Definition min1 (s : string) : bool := (1 <=? String.length s)%nat.

(** [z.string().min(1).optional()] *)
Definition min1_optional (s : option string) : bool :=
  match s with
  | Some v => min1 v
  | None => true
  end.

(** [x !== undefined] *)
Definition defined {A} (x : option A) : bool :=
  match x with
  | Some _ => true
  | None => false
  end.

(** [z.object(...)] with every field check passing, then [.refine(p, message)]. *)
Definition object_refine {I} (fields : bool) (p : bool) (input : I) : Parsed I :=
  if fields then (if p then inr input else inl nothing_to_update)
  else inl too_short.

Definition object {I} (fields : bool) (input : I) : Parsed I :=
  if fields then inr input else inl too_short.

Definition invalid (issue : string) : ActionError :=
  {| code := VALIDATION; message := issue |}.

Definition defineAction {Raw I A}
  (input : Raw -> Parsed I) (handler : I -> Context -> Ambient -> M A)
  : Raw -> Context -> Ambient -> M A :=
  fun raw context amb =>
    match input raw with
    | inl issue => throw (invalid issue)
    | inr parsed => handler parsed context amb
    end.

(** [...(x !== undefined ? { field: x } : {})] inside [.set]: the column
    takes the supplied value, or keeps the stored one. *)
Definition spread {A} (supplied : option A) (stored : A) : A :=
  match supplied with
  | Some v => v
  | None => stored
  end.

(** The same for a nullable column. *)
Definition spread_opt {A} (supplied : option A) (stored : option A) : option A :=
  match supplied with
  | Some v => Some v
  | None => stored
  end.

(** [{ items, total: items.length }] *)
Definition listing {A} (items : list A) : list A * nat := (items, length items).

(** ** Script actions *)

Module createScript.
Record input := {
  title : string;
  scriptType : option string;
  formatStandard : option string;
  logline : option string;
  status : option string;
  notes : option string
}.

Definition schema (i : input) : Parsed input :=
  object (min1 (title i)) i.

Definition handler (i : input) (context : Context) (amb : Ambient)
  : M (option Scripts.row) :=
  user <- requireUser context ;;
  inserted <- insert ScriptsT
    {| Scripts.id := randomUUID amb;
       Scripts.userId := User.id user;
       Scripts.title := title i;
       Scripts.scriptType := scriptType i;
       Scripts.formatStandard := formatStandard i;
       Scripts.logline := logline i;
       Scripts.status := status i;
       Scripts.notes := notes i;
       Scripts.createdAt := now amb;
       Scripts.updatedAt := now amb |} ;;
  ret (first inserted).
End createScript.

Definition createScript := defineAction createScript.schema createScript.handler.

Module updateScript.
Record input := {
  id : string;
  title : option string;
  scriptType : option string;
  formatStandard : option string;
  logline : option string;
  status : option string;
  notes : option string
}.

Definition refinement (i : input) : bool :=
  defined (title i) || defined (scriptType i) || defined (formatStandard i)
  || defined (logline i) || defined (status i) || defined (notes i).

Definition schema (i : input) : Parsed input :=
  object_refine (min1 (id i) && min1_optional (title i)) (refinement i) i.

Definition set (i : input) (amb : Ambient) (r : Scripts.row) : Scripts.row :=
  {| Scripts.id := Scripts.id r;
     Scripts.userId := Scripts.userId r;
     Scripts.title := spread (title i) (Scripts.title r);
     Scripts.scriptType := spread_opt (scriptType i) (Scripts.scriptType r);
     Scripts.formatStandard :=
       spread_opt (formatStandard i) (Scripts.formatStandard r);
     Scripts.logline := spread_opt (logline i) (Scripts.logline r);
     Scripts.status := spread_opt (status i) (Scripts.status r);
     Scripts.notes := spread_opt (notes i) (Scripts.notes r);
     Scripts.createdAt := Scripts.createdAt r;
     Scripts.updatedAt := now amb |}.

Definition handler (i : input) (context : Context) (amb : Ambient)
  : M (option Scripts.row) :=
  user <- requireUser context ;;
  getOwnedScript (id i) (User.id user) ;;;
  updated <- update ScriptsT (set i amb) (Sql.eq Scripts.id (id i)) ;;
  ret (first updated).
End updateScript.

Definition updateScript := defineAction updateScript.schema updateScript.handler.

Module listScripts.
(** [z.object({}).optional()]: nothing to check. *)
Definition schema (i : unit) : Parsed unit := inr i.

Definition handler (_ : unit) (context : Context) (amb : Ambient)
  : M (list Scripts.row * nat) :=
  user <- requireUser context ;;
  scripts <- select ScriptsT (Sql.eq Scripts.userId (User.id user)) ;;
  ret (listing scripts).
End listScripts.

Definition listScripts := defineAction listScripts.schema listScripts.handler.

(** ** ScriptVersion actions *)

Module createScriptVersion.
Record input := {
  scriptId : string;
  versionLabel : option string;
  isPreferred : option bool;
  rawContent : string;
  formattedContent : option string
}.

Definition schema (i : input) : Parsed input :=
  object (min1 (scriptId i) && min1 (rawContent i)) i.

Definition handler (i : input) (context : Context) (amb : Ambient)
  : M (option ScriptVersions.row) :=
  user <- requireUser context ;;
  getOwnedScript (scriptId i) (User.id user) ;;;
  inserted <- insert ScriptVersionsT
    {| ScriptVersions.id := randomUUID amb;
       ScriptVersions.scriptId := scriptId i;
       ScriptVersions.versionLabel := versionLabel i;
       ScriptVersions.isPreferred := spread (isPreferred i) false;
       ScriptVersions.rawContent := rawContent i;
       ScriptVersions.formattedContent := formattedContent i;
       ScriptVersions.createdAt := now amb |} ;;
  ret (first inserted).
End createScriptVersion.

Definition createScriptVersion :=
  defineAction createScriptVersion.schema createScriptVersion.handler.

Module updateScriptVersion.
Record input := {
  id : string;
  scriptId : string;
  versionLabel : option string;
  isPreferred : option bool;
  rawContent : option string;
  formattedContent : option string
}.

Definition refinement (i : input) : bool :=
  defined (versionLabel i) || defined (isPreferred i)
  || defined (rawContent i) || defined (formattedContent i).

Definition schema (i : input) : Parsed input :=
  object_refine (min1 (id i) && min1 (scriptId i)) (refinement i) i.

Definition set (i : input) (r : ScriptVersions.row) : ScriptVersions.row :=
  {| ScriptVersions.id := ScriptVersions.id r;
     ScriptVersions.scriptId := ScriptVersions.scriptId r;
     ScriptVersions.versionLabel :=
       spread_opt (versionLabel i) (ScriptVersions.versionLabel r);
     ScriptVersions.isPreferred :=
       spread (isPreferred i) (ScriptVersions.isPreferred r);
     ScriptVersions.rawContent :=
       spread (rawContent i) (ScriptVersions.rawContent r);
     ScriptVersions.formattedContent :=
       spread_opt (formattedContent i) (ScriptVersions.formattedContent r);
     ScriptVersions.createdAt := ScriptVersions.createdAt r |}.

Definition handler (i : input) (context : Context) (amb : Ambient)
  : M (option ScriptVersions.row) :=
  user <- requireUser context ;;
  getOwnedVersion (id i) (scriptId i) (User.id user) ;;;
  updated <- update ScriptVersionsT (set i) (Sql.eq ScriptVersions.id (id i)) ;;
  ret (first updated).
End updateScriptVersion.

Definition updateScriptVersion :=
  defineAction updateScriptVersion.schema updateScriptVersion.handler.

Module deleteScriptVersion.
Record input := { id : string; scriptId : string }.

Definition schema (i : input) : Parsed input :=
  object (min1 (id i) && min1 (scriptId i)) i.

Definition handler (i : input) (context : Context) (amb : Ambient) : M unit :=
  user <- requireUser context ;;
  getOwnedVersion (id i) (scriptId i) (User.id user) ;;;
  rowsAffected <- delete ScriptVersionsT (Sql.eq ScriptVersions.id (id i)) ;;
  if (rowsAffected =? 0)%nat then throw version_not_found else ret tt.
End deleteScriptVersion.

Definition deleteScriptVersion :=
  defineAction deleteScriptVersion.schema deleteScriptVersion.handler.

Module listScriptVersions.
Record raw := { raw_scriptId : string; raw_preferredOnly : option bool }.

Record input := { scriptId : string; preferredOnly : bool }.

(** [preferredOnly: z.boolean().default(false)] *)
Definition schema (r : raw) : Parsed input :=
  object (min1 (raw_scriptId r))
    {| scriptId := raw_scriptId r;
       preferredOnly := spread (raw_preferredOnly r) false |}.

Definition handler (i : input) (context : Context) (amb : Ambient)
  : M (list ScriptVersions.row * nat) :=
  user <- requireUser context ;;
  getOwnedScript (scriptId i) (User.id user) ;;;
  versions <- select ScriptVersionsT
    (if preferredOnly i
     then Sql.and (Sql.eq ScriptVersions.scriptId (scriptId i))
                  (Sql.eq_bool ScriptVersions.isPreferred true)
     else Sql.eq ScriptVersions.scriptId (scriptId i)) ;;
  ret (listing versions).
End listScriptVersions.

Definition listScriptVersions :=
  defineAction listScriptVersions.schema listScriptVersions.handler.

(** ** ScriptElement actions *)

Module createScriptElement.
(** [orderIndex: z.number().int()]: the numbers that pass are the integers. *)
Record input := {
  scriptId : string;
  scriptVersionId : string;
  orderIndex : Z;
  elementType : string;
  characterName : option string;
  content : string
}.

Definition schema (i : input) : Parsed input :=
  object (min1 (scriptId i) && min1 (scriptVersionId i)
          && min1 (elementType i) && min1 (content i)) i.

Definition handler (i : input) (context : Context) (amb : Ambient)
  : M (option ScriptElements.row) :=
  user <- requireUser context ;;
  getOwnedVersion (scriptVersionId i) (scriptId i) (User.id user) ;;;
  inserted <- insert ScriptElementsT
    {| ScriptElements.id := randomUUID amb;
       ScriptElements.scriptVersionId := scriptVersionId i;
       ScriptElements.orderIndex := orderIndex i;
       ScriptElements.elementType := elementType i;
       ScriptElements.characterName := characterName i;
       ScriptElements.content := content i;
       ScriptElements.createdAt := now amb |} ;;
  ret (first inserted).
End createScriptElement.

Definition createScriptElement :=
  defineAction createScriptElement.schema createScriptElement.handler.

Module updateScriptElement.
Record input := {
  id : string;
  scriptId : string;
  scriptVersionId : string;
  orderIndex : option Z;
  elementType : option string;
  characterName : option string;
  content : option string
}.

Definition refinement (i : input) : bool :=
  defined (orderIndex i) || defined (elementType i)
  || defined (characterName i) || defined (content i).

Definition schema (i : input) : Parsed input :=
  object_refine (min1 (id i) && min1 (scriptId i) && min1 (scriptVersionId i))
                (refinement i) i.

Definition set (i : input) (r : ScriptElements.row) : ScriptElements.row :=
  {| ScriptElements.id := ScriptElements.id r;
     ScriptElements.scriptVersionId := ScriptElements.scriptVersionId r;
     ScriptElements.orderIndex :=
       spread (orderIndex i) (ScriptElements.orderIndex r);
     ScriptElements.elementType :=
       spread (elementType i) (ScriptElements.elementType r);
     ScriptElements.characterName :=
       spread_opt (characterName i) (ScriptElements.characterName r);
     ScriptElements.content := spread (content i) (ScriptElements.content r);
     ScriptElements.createdAt := ScriptElements.createdAt r |}.

Definition handler (i : input) (context : Context) (amb : Ambient)
  : M (option ScriptElements.row) :=
  user <- requireUser context ;;
  getOwnedVersion (scriptVersionId i) (scriptId i) (User.id user) ;;;
  existing <- select ScriptElementsT (Sql.eq ScriptElements.id (id i)) ;;
  match first existing with
  | None => throw element_not_found
  | Some _ =>
      updated <- update ScriptElementsT (set i)
                   (Sql.eq ScriptElements.id (id i)) ;;
      ret (first updated)
  end.
End updateScriptElement.

Definition updateScriptElement :=
  defineAction updateScriptElement.schema updateScriptElement.handler.

Module deleteScriptElement.
Record input := { id : string; scriptId : string; scriptVersionId : string }.

Definition schema (i : input) : Parsed input :=
  object (min1 (id i) && min1 (scriptId i) && min1 (scriptVersionId i)) i.

Definition handler (i : input) (context : Context) (amb : Ambient) : M unit :=
  user <- requireUser context ;;
  getOwnedVersion (scriptVersionId i) (scriptId i) (User.id user) ;;;
  rowsAffected <- delete ScriptElementsT (Sql.eq ScriptElements.id (id i)) ;;
  if (rowsAffected =? 0)%nat then throw element_not_found else ret tt.
End deleteScriptElement.

Definition deleteScriptElement :=
  defineAction deleteScriptElement.schema deleteScriptElement.handler.

Module listScriptElements.
Record input := { scriptId : string; scriptVersionId : string }.

Definition schema (i : input) : Parsed input :=
  object (min1 (scriptId i) && min1 (scriptVersionId i)) i.

Definition handler (i : input) (context : Context) (amb : Ambient)
  : M (list ScriptElements.row * nat) :=
  user <- requireUser context ;;
  getOwnedVersion (scriptVersionId i) (scriptId i) (User.id user) ;;;
  elements <- select ScriptElementsT
    (Sql.eq ScriptElements.scriptVersionId (scriptVersionId i)) ;;
  ret (listing elements).
End listScriptElements.

Definition listScriptElements :=
  defineAction listScriptElements.schema listScriptElements.handler.

(** ** The [server] object: one entry per action *)

Inductive Request :=
| CreateScript (i : createScript.input)
| UpdateScript (i : updateScript.input)
| ListScripts
| CreateScriptVersion (i : createScriptVersion.input)
| UpdateScriptVersion (i : updateScriptVersion.input)
| DeleteScriptVersion (i : deleteScriptVersion.input)
| ListScriptVersions (i : listScriptVersions.raw)
| CreateScriptElement (i : createScriptElement.input)
| UpdateScriptElement (i : updateScriptElement.input)
| DeleteScriptElement (i : deleteScriptElement.input)
| ListScriptElements (i : listScriptElements.input).

(** The [data] of a [{ success: true, data }] envelope. *)
Inductive Data :=
| data_script (s : option Scripts.row)
| data_version (v : option ScriptVersions.row)
| data_element (e : option ScriptElements.row)
| data_scripts (items : list Scripts.row) (total : nat)
| data_versions (items : list ScriptVersions.row) (total : nat)
| data_elements (items : list ScriptElements.row) (total : nat)
| data_none.

Definition respond {A} (wrap : A -> Data) (m : M A) : M Data :=
  a <- m ;; ret (wrap a).

Definition server (r : Request) (context : Context) (amb : Ambient) : M Data :=
  match r with
  | CreateScript i => respond data_script (createScript i context amb)
  | UpdateScript i => respond data_script (updateScript i context amb)
  | ListScripts =>
      respond (fun l => data_scripts (fst l) (snd l)) (listScripts tt context amb)
  | CreateScriptVersion i => respond data_version (createScriptVersion i context amb)
  | UpdateScriptVersion i => respond data_version (updateScriptVersion i context amb)
  | DeleteScriptVersion i =>
      respond (fun _ => data_none) (deleteScriptVersion i context amb)
  | ListScriptVersions i =>
      respond (fun l => data_versions (fst l) (snd l))
              (listScriptVersions i context amb)
  | CreateScriptElement i => respond data_element (createScriptElement i context amb)
  | UpdateScriptElement i => respond data_element (updateScriptElement i context amb)
  | DeleteScriptElement i =>
      respond (fun _ => data_none) (deleteScriptElement i context amb)
  | ListScriptElements i =>
      respond (fun l => data_elements (fst l) (snd l))
              (listScriptElements i context amb)
  end.

(** A call as it reaches the server, and a history of calls served one
    after the other. *)
Record Call := { request : Request; context : Context; ambient : Ambient }.

Definition serve (c : Call) (w : World) : Outcome Data * World :=
  server (request c) (context c) (ambient c) w.

Fixpoint run (history : list Call) (w : World) : World :=
  match history with
  | [] => w
  | c :: rest => run rest (snd (serve c w))
  end.

(** * Vocabulary of the properties and a worked history *)

(** The columns of a Script that say whose it is. *)
Definition owner_key (r : Scripts.row) : string * string :=
  (Scripts.id r, Scripts.userId r).

(** The script [scriptId] is stored, and only under the owner [userId]. *)
Definition sole_owner (scriptId userId : string) (d : DB) : Prop :=
  In (scriptId, userId) (map owner_key (tScripts d))
  /\ forall v, In (scriptId, v) (map owner_key (tScripts d)) -> v = userId.

(** What the specification asks of a column after a patch: it holds the
    supplied value, or is left as stored when the patch omits it. *)
Definition patched {A} (supplied : option A) (stored after : A) : Prop :=
  match supplied with
  | Some v => after = v
  | None => after = stored
  end.

Definition patched_opt {A} (supplied : option A) (stored after : option A) : Prop :=
  match supplied with
  | Some v => after = Some v
  | None => after = stored
  end.

Definition script_patched (i : updateScript.input) (r r' : Scripts.row) : Prop :=
  if (Scripts.id r =? updateScript.id i)%string
  then Scripts.id r' = Scripts.id r
       /\ Scripts.userId r' = Scripts.userId r
       /\ patched (updateScript.title i) (Scripts.title r) (Scripts.title r')
       /\ patched_opt (updateScript.scriptType i)
            (Scripts.scriptType r) (Scripts.scriptType r')
       /\ patched_opt (updateScript.formatStandard i)
            (Scripts.formatStandard r) (Scripts.formatStandard r')
       /\ patched_opt (updateScript.logline i)
            (Scripts.logline r) (Scripts.logline r')
       /\ patched_opt (updateScript.status i)
            (Scripts.status r) (Scripts.status r')
       /\ patched_opt (updateScript.notes i) (Scripts.notes r) (Scripts.notes r')
       /\ Scripts.createdAt r' = Scripts.createdAt r
  else r' = r.

Definition version_patched (i : updateScriptVersion.input)
  (r r' : ScriptVersions.row) : Prop :=
  if (ScriptVersions.id r =? updateScriptVersion.id i)%string
  then ScriptVersions.id r' = ScriptVersions.id r
       /\ ScriptVersions.scriptId r' = ScriptVersions.scriptId r
       /\ patched_opt (updateScriptVersion.versionLabel i)
            (ScriptVersions.versionLabel r) (ScriptVersions.versionLabel r')
       /\ patched (updateScriptVersion.isPreferred i)
            (ScriptVersions.isPreferred r) (ScriptVersions.isPreferred r')
       /\ patched (updateScriptVersion.rawContent i)
            (ScriptVersions.rawContent r) (ScriptVersions.rawContent r')
       /\ patched_opt (updateScriptVersion.formattedContent i)
            (ScriptVersions.formattedContent r)
            (ScriptVersions.formattedContent r')
       /\ ScriptVersions.createdAt r' = ScriptVersions.createdAt r
  else r' = r.

Definition element_patched (i : updateScriptElement.input)
  (r r' : ScriptElements.row) : Prop :=
  if (ScriptElements.id r =? updateScriptElement.id i)%string
  then ScriptElements.id r' = ScriptElements.id r
       /\ ScriptElements.scriptVersionId r' = ScriptElements.scriptVersionId r
       /\ patched (updateScriptElement.orderIndex i)
            (ScriptElements.orderIndex r) (ScriptElements.orderIndex r')
       /\ patched (updateScriptElement.elementType i)
            (ScriptElements.elementType r) (ScriptElements.elementType r')
       /\ patched_opt (updateScriptElement.characterName i)
            (ScriptElements.characterName r) (ScriptElements.characterName r')
       /\ patched (updateScriptElement.content i)
            (ScriptElements.content r) (ScriptElements.content r')
       /\ ScriptElements.createdAt r' = ScriptElements.createdAt r
  else r' = r.

(** Clock readings that never go back: each call reads a time no earlier
    than the call before it, starting from [t]. *)
Fixpoint chronological (t : Date) (history : list Call) : Prop :=
  match history with
  | [] => True
  | c :: rest => t <= now (ambient c) /\ chronological (now (ambient c)) rest
  end.

(** The clock reading of the last call of a history that started at [t]. *)
Fixpoint last_reading (t : Date) (history : list Call) : Date :=
  match history with
  | [] => t
  | c :: rest => last_reading (now (ambient c)) rest
  end.

(** No stored Script was updated later than [t]. *)
Definition stamped_by (t : Date) (d : DB) : Prop :=
  forall r, In r (tScripts d) -> Scripts.updatedAt r <= t.

(** The updatedAt column across an [updateScript]: the clock reading in
    the addressed row, the stored value elsewhere. *)
Definition refreshed (i : updateScript.input) (amb : Ambient)
  (r r' : Scripts.row) : Prop :=
  Scripts.id r' = Scripts.id r
  /\ if (Scripts.id r =? updateScript.id i)%string
     then Scripts.updatedAt r' = now amb
     else Scripts.updatedAt r' = Scripts.updatedAt r.

(** A [listScriptVersions] request with the flag given. *)
Definition only (preferred : bool) (scriptId : string) : listScriptVersions.raw :=
  {| listScriptVersions.raw_scriptId := scriptId;
     listScriptVersions.raw_preferredOnly := Some preferred |}.

(** The identity a request carries, if any. *)
Definition caller (ctx : Context) : option User.t :=
  match locals ctx with
  | Some l => user l
  | None => None
  end.

Definition accepted {I} (p : Parsed I) : bool :=
  match p with
  | inr _ => true
  | inl _ => false
  end.

(** Does the request pass the input schema of its action? *)
Definition valid (r : Request) : bool :=
  match r with
  | CreateScript i => accepted (createScript.schema i)
  | UpdateScript i => accepted (updateScript.schema i)
  | ListScripts => accepted (listScripts.schema tt)
  | CreateScriptVersion i => accepted (createScriptVersion.schema i)
  | UpdateScriptVersion i => accepted (updateScriptVersion.schema i)
  | DeleteScriptVersion i => accepted (deleteScriptVersion.schema i)
  | ListScriptVersions i => accepted (listScriptVersions.schema i)
  | CreateScriptElement i => accepted (createScriptElement.schema i)
  | UpdateScriptElement i => accepted (updateScriptElement.schema i)
  | DeleteScriptElement i => accepted (deleteScriptElement.schema i)
  | ListScriptElements i => accepted (listScriptElements.schema i)
  end.

Definition untitled : createScript.input :=
  {| createScript.title := "";
     createScript.scriptType := None;
     createScript.formatStandard := None;
     createScript.logline := None;
     createScript.status := None;
     createScript.notes := None |}.

(** ** A worked history

    Alice stores a script with one version and one element; Bob stores a
    script with one version. *)

Definition at_time (t : Date) (uuid : string) : Ambient :=
  {| now := t; randomUUID := uuid |}.

Definition call_by (u : string) (t : Date) (uuid : string) (r : Request) : Call :=
  {| request := r; context := signedIn u; ambient := at_time t uuid |}.

Definition titled (t : string) : createScript.input :=
  {| createScript.title := t;
     createScript.scriptType := None;
     createScript.formatStandard := None;
     createScript.logline := None;
     createScript.status := None;
     createScript.notes := None |}.

Definition draft (scriptId raw : string) : createScriptVersion.input :=
  {| createScriptVersion.scriptId := scriptId;
     createScriptVersion.versionLabel := None;
     createScriptVersion.isPreferred := None;
     createScriptVersion.rawContent := raw;
     createScriptVersion.formattedContent := None |}.

Definition heading (scriptId versionId text : string) : createScriptElement.input :=
  {| createScriptElement.scriptId := scriptId;
     createScriptElement.scriptVersionId := versionId;
     createScriptElement.orderIndex := 0;
     createScriptElement.elementType := "scene-heading";
     createScriptElement.characterName := None;
     createScriptElement.content := text |}.

Definition two_tenants : list Call :=
  [ call_by "alice" 1 "s-alice" (CreateScript (titled "Heist"));
    call_by "alice" 2 "v-alice" (CreateScriptVersion (draft "s-alice" "INT. BANK"));
    call_by "alice" 3 "e-alice"
      (CreateScriptElement (heading "s-alice" "v-alice" "INT. BANK"));
    call_by "bob" 4 "s-bob" (CreateScript (titled "Spy"));
    call_by "bob" 5 "v-bob" (CreateScriptVersion (draft "s-bob" "EXT. PARK")) ].

Definition two_tenants_world : World := run two_tenants emptyWorld.

Definition alice_element : ScriptElements.row :=
  {| ScriptElements.id := "e-alice";
     ScriptElements.scriptVersionId := "v-alice";
     ScriptElements.orderIndex := 0;
     ScriptElements.elementType := "scene-heading";
     ScriptElements.characterName := None;
     ScriptElements.content := "INT. BANK";
     ScriptElements.createdAt := 3 |}.

(** Bob names his own script and version, and Alice's element. *)
Definition bob_deletes_alice_element : deleteScriptElement.input :=
  {| deleteScriptElement.id := "e-alice";
     deleteScriptElement.scriptId := "s-bob";
     deleteScriptElement.scriptVersionId := "v-bob" |}.

Definition bob_rewrites_alice_element : updateScriptElement.input :=
  {| updateScriptElement.id := "e-alice";
     updateScriptElement.scriptId := "s-bob";
     updateScriptElement.scriptVersionId := "v-bob";
     updateScriptElement.orderIndex := None;
     updateScriptElement.elementType := None;
     updateScriptElement.characterName := None;
     updateScriptElement.content := Some "EXT. MOON" |}.

Definition empties_raw (id scriptId : string) : updateScriptVersion.input :=
  {| updateScriptVersion.id := id;
     updateScriptVersion.scriptId := scriptId;
     updateScriptVersion.versionLabel := None;
     updateScriptVersion.isPreferred := None;
     updateScriptVersion.rawContent := Some "";
     updateScriptVersion.formattedContent := None |}.

Definition emptied_version : ScriptVersions.row :=
  {| ScriptVersions.id := "v-alice";
     ScriptVersions.scriptId := "s-alice";
     ScriptVersions.versionLabel := None;
     ScriptVersions.isPreferred := false;
     ScriptVersions.rawContent := "";
     ScriptVersions.formattedContent := None;
     ScriptVersions.createdAt := 2 |}.

Definition emptying : list Call :=
  [ call_by "alice" 1 "s-alice" (CreateScript (titled "Heist"));
    call_by "alice" 2 "v-alice" (CreateScriptVersion (draft "s-alice" "INT. BANK"));
    call_by "alice" 3 "" (UpdateScriptVersion (empties_raw "v-alice" "s-alice")) ].

(** The outcomes of a history, call by call. *)
Fixpoint outcomes (history : list Call) (w : World) : list (Outcome Data) :=
  match history with
  | [] => []
  | c :: rest => fst (serve c w) :: outcomes rest (snd (serve c w))
  end.

(** The chain User -> Script -> ScriptVersion named by a request resolves:
    the script is stored under the caller, and the version under the
    script. *)
Definition chain_resolves (u scriptId versionId : string) (d : DB) : Prop :=
  (exists s, In s (tScripts d)
             /\ Scripts.id s = scriptId /\ Scripts.userId s = u)
  /\ (exists v, In v (tScriptVersions d)
                /\ ScriptVersions.id v = versionId
                /\ ScriptVersions.scriptId v = scriptId).

Definition alice_script : Scripts.row :=
  {| Scripts.id := "s-alice";
     Scripts.userId := "alice";
     Scripts.title := "Heist";
     Scripts.scriptType := None;
     Scripts.formatStandard := None;
     Scripts.logline := None;
     Scripts.status := None;
     Scripts.notes := None;
     Scripts.createdAt := 1;
     Scripts.updatedAt := 1 |}.

Definition after_heist : World :=
  snd (createScript (titled "Heist") (signedIn "alice") (at_time 1 "s-alice")
         emptyWorld).

Definition later_calls : list Call :=
  [ call_by "bob" 4 "s-bob" (CreateScript (titled "Spy"));
    call_by "alice" 5 ""
      (UpdateScript {| updateScript.id := "s-alice";
                       updateScript.title := Some "Heist II";
                       updateScript.scriptType := None;
                       updateScript.formatStandard := None;
                       updateScript.logline := None;
                       updateScript.status := None;
                       updateScript.notes := None |}) ].

Definition only_status : updateScript.input :=
  {| updateScript.id := "s-alice";
     updateScript.title := None;
     updateScript.scriptType := None;
     updateScript.formatStandard := None;
     updateScript.logline := None;
     updateScript.status := Some "final";
     updateScript.notes := None |}.

Definition only_preferred : updateScriptVersion.input :=
  {| updateScriptVersion.id := "v-alice";
     updateScriptVersion.scriptId := "s-alice";
     updateScriptVersion.versionLabel := None;
     updateScriptVersion.isPreferred := Some true;
     updateScriptVersion.rawContent := None;
     updateScriptVersion.formattedContent := None |}.

Definition only_content : updateScriptElement.input :=
  {| updateScriptElement.id := "e-alice";
     updateScriptElement.scriptId := "s-alice";
     updateScriptElement.scriptVersionId := "v-alice";
     updateScriptElement.orderIndex := None;
     updateScriptElement.elementType := None;
     updateScriptElement.characterName := None;
     updateScriptElement.content := Some "INT. VAULT" |}.

(** A script created at clock reading 5. *)
Definition stamped_at_five : World :=
  run [ call_by "alice" 5 "s-alice" (CreateScript (titled "Heist")) ]
      emptyWorld.

Definition missing_version : deleteScriptVersion.input :=
  {| deleteScriptVersion.id := "v-none";
     deleteScriptVersion.scriptId := "s-alice" |}.

Definition missing_element : deleteScriptElement.input :=
  {| deleteScriptElement.id := "e-none";
     deleteScriptElement.scriptId := "s-alice";
     deleteScriptElement.scriptVersionId := "v-alice" |}.

Definition stored_version : deleteScriptVersion.input :=
  {| deleteScriptVersion.id := "v-bob";
     deleteScriptVersion.scriptId := "s-bob" |}.

Definition stored_element : deleteScriptElement.input :=
  {| deleteScriptElement.id := "e-alice";
     deleteScriptElement.scriptId := "s-alice";
     deleteScriptElement.scriptVersionId := "v-alice" |}.

(** ** Vocabulary of the further properties *)

(** A statement that writes to its table. *)
Definition is_write (s : Statement) : bool :=
  match s with
  | Select _ => false
  | Insert _ | Update _ | Delete _ => true
  end.

(** Text without a NUL character: the client reads such text back as it
    was stored. *)
Fixpoint plain (s : string) : bool :=
  match s with
  | EmptyString => true
  | String c rest => negb (Ascii.eqb c Ascii.zero) && plain rest
  end.

Definition plain_opt (s : option string) : bool :=
  match s with
  | Some v => plain v
  | None => true
  end.

Definition plain_script (r : Scripts.row) : bool :=
  plain (Scripts.id r) && plain (Scripts.userId r) && plain (Scripts.title r)
  && plain_opt (Scripts.scriptType r) && plain_opt (Scripts.formatStandard r)
  && plain_opt (Scripts.logline r) && plain_opt (Scripts.status r)
  && plain_opt (Scripts.notes r).

Definition plain_element (e : ScriptElements.row) : bool :=
  plain (ScriptElements.id e) && plain (ScriptElements.scriptVersionId e)
  && plain (ScriptElements.elementType e)
  && plain_opt (ScriptElements.characterName e)
  && plain (ScriptElements.content e).

(** The actions whose write hands an integer column back to the client. *)
Definition reads_back_integer (r : Request) : bool :=
  match r with
  | CreateScriptElement _ | UpdateScriptElement _ => true
  | _ => false
  end.

(** Every table holds at most one row per primary key. *)
Definition keys_unique (d : DB) : Prop :=
  NoDup (map Scripts.id (tScripts d))
  /\ NoDup (map ScriptVersions.id (tScriptVersions d))
  /\ NoDup (map ScriptElements.id (tScriptElements d)).

(** Every stored version names a stored script. *)
Definition versions_anchored (d : DB) : Prop :=
  forall v, In v (tScriptVersions d) ->
            In (ScriptVersions.scriptId v) (map Scripts.id (tScripts d)).

(** Alice asks to delete her version, which still has an element. *)
Definition deletes_alice_version : deleteScriptVersion.input :=
  {| deleteScriptVersion.id := "v-alice";
     deleteScriptVersion.scriptId := "s-alice" |}.

(** Bob deletes his version, which has no element. *)
Definition after_bob_version : World :=
  snd (deleteScriptVersion stored_version (signedIn "bob")
         (at_time 7 "") two_tenants_world).

Definition lists_alice_version : listScriptElements.input :=
  {| listScriptElements.scriptId := "s-alice";
     listScriptElements.scriptVersionId := "v-alice" |}.

(** The script is stored under this user. *)
Definition script_owned (userId scriptId : string) (d : DB) : Prop :=
  exists s, In s (tScripts d)
            /\ Scripts.id s = scriptId /\ Scripts.userId s = userId.

(** The version is stored under this script. *)
Definition version_under (scriptId versionId : string) (d : DB) : Prop :=
  exists v, In v (tScriptVersions d)
            /\ ScriptVersions.id v = versionId
            /\ ScriptVersions.scriptId v = scriptId.

(** The script and the version a request names for the action to resolve
    before it acts. *)
Definition named_chain (r : Request) : option (string * string) :=
  match r with
  | UpdateScriptVersion i =>
      Some (updateScriptVersion.scriptId i, updateScriptVersion.id i)
  | DeleteScriptVersion i =>
      Some (deleteScriptVersion.scriptId i, deleteScriptVersion.id i)
  | CreateScriptElement i =>
      Some (createScriptElement.scriptId i, createScriptElement.scriptVersionId i)
  | UpdateScriptElement i =>
      Some (updateScriptElement.scriptId i, updateScriptElement.scriptVersionId i)
  | DeleteScriptElement i =>
      Some (deleteScriptElement.scriptId i, deleteScriptElement.scriptVersionId i)
  | ListScriptElements i =>
      Some (listScriptElements.scriptId i, listScriptElements.scriptVersionId i)
  | _ => None
  end.

(** The script a request names, alone or at the head of a chain. *)
Definition named_script (r : Request) : option string :=
  match r with
  | UpdateScript i => Some (updateScript.id i)
  | CreateScriptVersion i => Some (createScriptVersion.scriptId i)
  | ListScriptVersions i => Some (listScriptVersions.raw_scriptId i)
  | _ => option_map fst (named_chain r)
  end.

(** The world after the statements [sent] reached the database without
    changing it. *)
Definition after_reading (sent : list Statement) (w : World) : World :=
  {| db := db w; trace := trace w ++ sent |}.

(** Requests used to exercise the further properties on the worked
    history. *)
Definition bob_lists_alice_elements : listScriptElements.input :=
  {| listScriptElements.scriptId := "s-alice";
     listScriptElements.scriptVersionId := "v-alice" |}.

Definition bob_lists_alice_version_as_his : listScriptElements.input :=
  {| listScriptElements.scriptId := "s-bob";
     listScriptElements.scriptVersionId := "v-alice" |}.

Definition rewrites_missing_element : updateScriptElement.input :=
  {| updateScriptElement.id := "e-none";
     updateScriptElement.scriptId := "s-alice";
     updateScriptElement.scriptVersionId := "v-alice";
     updateScriptElement.orderIndex := Some 3;
     updateScriptElement.elementType := None;
     updateScriptElement.characterName := None;
     updateScriptElement.content := None |}.


Definition after_heading : World :=
  snd (createScriptElement
         {| createScriptElement.scriptId := "s-alice";
            createScriptElement.scriptVersionId := "v-alice";
            createScriptElement.orderIndex := 0;
            createScriptElement.elementType := "scene-heading";
            createScriptElement.characterName := None;
            createScriptElement.content := "INT. BANK" |}
         (signedIn "alice") (at_time 3 "e-alice")
         (run [ call_by "alice" 1 "s-alice" (CreateScript (titled "Heist"));
                call_by "alice" 2 "v-alice"
                  (CreateScriptVersion (draft "s-alice" "INT. BANK")) ]
              emptyWorld)).

Definition heist_world : World :=
  run [ call_by "alice" 1 "s-alice" (CreateScript (titled "Heist"));
        call_by "alice" 2 "v-alice"
          (CreateScriptVersion (draft "s-alice" "INT. BANK")) ]
      emptyWorld.

(** * Properties *)

(** ** Ltac for stepping through a handler *)

Lemma all_readable_scripts (l : list Scripts.row) :
  all_readable ScriptsT l = true.
Proof. induction l; cbn; auto. Qed.

Lemma all_readable_versions (l : list ScriptVersions.row) :
  all_readable ScriptVersionsT l = true.
Proof. induction l; cbn; auto. Qed.

Lemma none_referenced_elements (d : DB) (l : list ScriptElements.row) :
  any_referenced ScriptElementsT d l = false.
Proof. induction l; cbn; auto. Qed.

(** Scripts and versions are always read back; elements are never
    referenced. *)
Ltac storage_facts :=
  rewrite ?all_readable_scripts, ?all_readable_versions,
    ?none_referenced_elements in *.

Ltac unfold_handlers :=
  unfold serve, server, respond,
    createScript, updateScript, listScripts,
    createScriptVersion, updateScriptVersion, deleteScriptVersion,
    listScriptVersions,
    createScriptElement, updateScriptElement, deleteScriptElement,
    listScriptElements,
    defineAction,
    createScript.handler, updateScript.handler, listScripts.handler,
    createScriptVersion.handler, updateScriptVersion.handler,
    deleteScriptVersion.handler, listScriptVersions.handler,
    createScriptElement.handler, updateScriptElement.handler,
    deleteScriptElement.handler, listScriptElements.handler,
    getOwnedVersion, getOwnedScript, requireUser,
    select, insert, update, delete, bind, ret, throw, first, listing in *;
  storage_facts.

(** Split on the scrutinee of the outermost [match] or [if] of the goal,
    remembering which branch was taken. *)
Ltac split_match :=
  match goal with
  | |- context [match ?x with _ => _ end] =>
      lazymatch x with
      | context [match _ with _ => _ end] => fail
      | _ => let E := fresh "E" in destruct x eqn:E
      end
  end.

Ltac step_handler :=
  unfold_handlers; storage_facts; cbn [fst snd];
  repeat (split_match; storage_facts; cbn [fst snd db trace sent]).

(** ** Facts about the query builder *)

Lemma filter_hd_error {A} (p : A -> bool) (l : list A) (a : A) :
  hd_error (filter p l) = Some a -> In a l /\ p a = true.
Proof.
  intro H.
  assert (Hin : In a (filter p l)).
  { destruct (filter p l); [discriminate | injection H as ->; now left]. }
  now apply filter_In in Hin.
Qed.

Lemma filter_hd_error_none {A} (p : A -> bool) (l : list A) :
  hd_error (filter p l) = None -> forall a, In a l -> p a = false.
Proof.
  intros H a Ha.
  destruct (p a) eqn:E; [| reflexivity].
  assert (Hin : In a (filter p l)) by (apply filter_In; auto).
  destruct (filter p l); [contradiction | discriminate].
Qed.

Lemma filter_none {A} (p : A -> bool) (l : list A) :
  (forall a, In a l -> p a = false) -> filter p l = [].
Proof.
  induction l as [| x l IH]; intros H; [reflexivity |].
  simpl. rewrite (H x (or_introl Logic.eq_refl)). apply IH.
  intros a Ha. apply H. now right.
Qed.

Lemma owner_filter_true (scriptId userId : string) (r : Scripts.row) :
  Sql.and (Sql.eq Scripts.id scriptId) (Sql.eq Scripts.userId userId) r = true
  <-> Scripts.id r = scriptId /\ Scripts.userId r = userId.
Proof.
  unfold Sql.and, Sql.eq. rewrite andb_true_iff, !String.eqb_eq. tauto.
Qed.

(** ** getOwnedScript *)

Lemma getOwnedScript_db scriptId userId w :
  snd (getOwnedScript scriptId userId w) = sent (Select TScripts) (db w) w.
Proof. step_handler; reflexivity. Qed.

Lemma getOwnedScript_ok scriptId userId w s :
  fst (getOwnedScript scriptId userId w) = Ok s ->
  In s (tScripts (db w)) /\ Scripts.id s = scriptId /\ Scripts.userId s = userId.
Proof.
  unfold_handlers. cbn.
  destruct (hd_error _) eqn:E; cbn; [| discriminate].
  intros [= ->]. apply filter_hd_error in E. destruct E as [Hin Hp].
  apply owner_filter_true in Hp. tauto.
Qed.

Lemma getOwnedScript_some scriptId userId w r :
  In r (tScripts (db w)) -> Scripts.id r = scriptId -> Scripts.userId r = userId ->
  exists s, fst (getOwnedScript scriptId userId w) = Ok s.
Proof.
  intros Hin Hid Hu. unfold_handlers. cbn.
  destruct (hd_error _) eqn:E; cbn; [eauto |].
  pose proof (filter_hd_error_none _ _ E r Hin) as Hf.
  assert (Ht : Sql.and (Sql.eq Scripts.id scriptId) (Sql.eq Scripts.userId userId) r = true)
    by (apply owner_filter_true; auto).
  congruence.
Qed.

Lemma getOwnedScript_missing scriptId userId w :
  (forall r, In r (tScripts (db w)) ->
             ~ (Scripts.id r = scriptId /\ Scripts.userId r = userId)) ->
  getOwnedScript scriptId userId w
  = (Throw script_not_found, sent (Select TScripts) (db w) w).
Proof.
  intros H. unfold_handlers. cbn.
  rewrite filter_none; [reflexivity |].
  intros r Hr. specialize (H r Hr).
  destruct (Sql.and _ _ r) eqn:E; [| reflexivity].
  apply owner_filter_true in E. contradiction.
Qed.

(** ** Who owns what *)

Lemma existsb_pkey_false {R} (key : R -> string) (v : string) (l : list R) :
  existsb (fun r => (key r =? v)%string) l = false -> ~ In v (map key l).
Proof.
  intros H Hin. apply in_map_iff in Hin. destruct Hin as [r [Hk Hr]].
  assert (Ht : existsb (fun r => (key r =? v)%string) l = true).
  { apply existsb_exists. exists r. split; [assumption |]. now apply String.eqb_eq. }
  congruence.
Qed.

Lemma map_owner_key_set (i : updateScript.input) (amb : Ambient)
  (p : Scripts.row -> bool) (l : list Scripts.row) :
  map owner_key (map (fun r => if p r then updateScript.set i amb r else r) l)
  = map owner_key l.
Proof.
  rewrite map_map. apply map_ext. intros r. now destruct (p r).
Qed.

Lemma server_owner_keys (r : Request) (ctx : Context) (amb : Ambient) (w : World) :
  exists extra,
    map owner_key (tScripts (db (snd (server r ctx amb w))))
    = map owner_key (tScripts (db w)) ++ extra
    /\ forall k, In k extra -> ~ In (fst k) (map Scripts.id (tScripts (db w))).
Proof.
  destruct r; step_handler.
  all: try (exists []; rewrite app_nil_r; split; [reflexivity | intros k []]).
  - eexists [_]. cbn. rewrite map_app. split; [reflexivity |].
    intros k [<- | []]. cbn. now apply existsb_pkey_false.
  - exists []. rewrite app_nil_r. cbn. split; [apply map_owner_key_set | intros k []].
Qed.

Lemma run_owner_keys (history : list Call) (w : World) :
  exists extra,
    map owner_key (tScripts (db (run history w)))
    = map owner_key (tScripts (db w)) ++ extra
    /\ forall k, In k extra -> ~ In (fst k) (map Scripts.id (tScripts (db w))).
Proof.
  revert w. induction history as [| c rest IH]; intros w; cbn.
  - exists []. rewrite app_nil_r. split; [reflexivity | intros k []].
  - destruct (server_owner_keys (request c) (context c) (ambient c) w)
      as [e1 [H1 F1]].
    destruct (IH (snd (serve c w))) as [e2 [H2 F2]].
    exists (e1 ++ e2). unfold serve in *. rewrite H2, H1, app_assoc.
    split; [reflexivity |].
    intros k Hk. apply in_app_or in Hk. destruct Hk as [Hk | Hk]; [now apply F1 |].
    intros Hin. apply (F2 k Hk).
    replace (map Scripts.id (tScripts (db (snd (server (request c) (context c) (ambient c) w)))))
      with (map fst (map owner_key (tScripts (db (snd (server (request c) (context c) (ambient c) w)))))).
    + rewrite H1, map_app. apply in_or_app. left.
      rewrite map_map. cbn. exact Hin.
    + rewrite map_map. reflexivity.
Qed.

Lemma in_owner_key (sid u : string) (l : list Scripts.row) :
  In (sid, u) (map owner_key l)
  <-> exists r, In r l /\ Scripts.id r = sid /\ Scripts.userId r = u.
Proof.
  rewrite in_map_iff. unfold owner_key. split.
  - intros [r [[= <- <-] Hr]]. eauto.
  - intros [r [Hr [<- <-]]]. eauto.
Qed.

Lemma sole_owner_run (scriptId userId : string) (history : list Call) (w : World) :
  sole_owner scriptId userId (db w) ->
  sole_owner scriptId userId (db (run history w)).
Proof.
  intros [Hin Hsole]. destruct (run_owner_keys history w) as [extra [Hk Hfresh]].
  unfold sole_owner. rewrite Hk. split.
  - apply in_or_app. now left.
  - intros v Hv. apply in_app_or in Hv. destruct Hv as [Hv | Hv]; [auto |].
    exfalso. apply (Hfresh _ Hv). cbn.
    apply in_owner_key in Hin. destruct Hin as [r [Hr [<- _]]].
    now apply in_map.
Qed.

Lemma sole_owner_resolves (scriptId userId : string) (w : World) :
  sole_owner scriptId userId (db w) ->
  (exists s, fst (getOwnedScript scriptId userId w) = Ok s
             /\ Scripts.id s = scriptId /\ Scripts.userId s = userId)
  /\ forall v, v <> userId ->
       getOwnedScript scriptId v w
       = (Throw script_not_found, sent (Select TScripts) (db w) w).
Proof.
  intros [Hin Hsole]. split.
  - apply in_owner_key in Hin. destruct Hin as [r [Hr [Hid Hu]]].
    destruct (getOwnedScript_some _ _ _ _ Hr Hid Hu) as [s Hs].
    exists s. split; [assumption |]. now apply getOwnedScript_ok in Hs.
  - intros v Hv. apply getOwnedScript_missing. intros r Hr [Hid Hu].
    apply Hv, Hsole, in_owner_key. eauto.
Qed.

Lemma createScript_ok (i : createScript.input) (ctx : Context) (amb : Ambient)
  (w w' : World) (res : option Scripts.row) :
  createScript i ctx amb w = (Ok res, w') ->
  exists u s,
    locals ctx = Some {| user := Some u |}
    /\ res = Some s
    /\ Scripts.id s = randomUUID amb /\ Scripts.userId s = User.id u
    /\ ~ In (Scripts.id s) (map Scripts.id (tScripts (db w)))
    /\ db w' = with_rows ScriptsT (tScripts (db w) ++ [s]) (db w).
Proof.
  step_handler; intros [= <- <-].
  exists t. eexists. destruct l as [u']. cbn in *. subst u'.
  repeat split; try reflexivity.
  cbn. now apply existsb_pkey_false.
Qed.

Lemma getOwnedScript_fresh (s : Scripts.row) (w w' : World) :
  ~ In (Scripts.id s) (map Scripts.id (tScripts (db w))) ->
  db w' = with_rows ScriptsT (tScripts (db w) ++ [s]) (db w) ->
  fst (getOwnedScript (Scripts.id s) (Scripts.userId s) w') = Ok s
  /\ sole_owner (Scripts.id s) (Scripts.userId s) (db w').
Proof.
  intros Hfresh Hdb. split.
  - unfold_handlers. cbn. rewrite Hdb. cbn. rewrite filter_app, filter_none.
    + cbn. unfold Sql.and, Sql.eq. now rewrite !String.eqb_refl.
    + intros r Hr. destruct (Sql.and _ _ r) eqn:E; [| reflexivity].
      apply owner_filter_true in E. destruct E as [E _].
      exfalso. apply Hfresh. rewrite <- E. now apply in_map.
  - unfold sole_owner. rewrite Hdb. cbn. rewrite map_app. cbn. split.
    + apply in_or_app. right. now left.
    + intros v Hv. apply in_app_or in Hv. destruct Hv as [Hv | [[= <-] | []]].
      * exfalso. apply Hfresh. apply in_owner_key in Hv.
        destruct Hv as [r [Hr [<- _]]]. now apply in_map.
      * reflexivity.
Qed.

(** C2: [getOwnedScript] returns a stored Script with [id = scriptId] and
    [userId = ownerId] whenever one exists and throws NOT_FOUND otherwise.
    A Script created by user [u] resolves for [u], right after its creation
    and after any later calls; for any other user [v] it throws the very
    NOT_FOUND error, with the very same effect on the world, that
    resolving an id stored nowhere throws. *)
Theorem getOwnedScript_owner_only :
  (forall (scriptId userId : string) (w : World),
      ((exists r, In r (tScripts (db w))
                  /\ Scripts.id r = scriptId /\ Scripts.userId r = userId) ->
       exists s, fst (getOwnedScript scriptId userId w) = Ok s
                 /\ In s (tScripts (db w))
                 /\ Scripts.id s = scriptId /\ Scripts.userId s = userId)
      /\ ((~ exists r, In r (tScripts (db w))
                       /\ Scripts.id r = scriptId /\ Scripts.userId r = userId) ->
          fst (getOwnedScript scriptId userId w) = Throw script_not_found))
  /\ (forall (i : createScript.input) (u : string) (amb : Ambient)
             (w w' : World) (res : option Scripts.row) (later : list Call),
         createScript i (signedIn u) amb w = (Ok res, w') ->
         exists s,
           res = Some s
           /\ fst (getOwnedScript (Scripts.id s) u w') = Ok s
           /\ (exists s', fst (getOwnedScript (Scripts.id s) u (run later w')) = Ok s'
                          /\ Scripts.id s' = Scripts.id s
                          /\ Scripts.userId s' = u)
           /\ forall (v absent : string),
               v <> u ->
               ~ In absent (map Scripts.id (tScripts (db (run later w')))) ->
               fst (getOwnedScript (Scripts.id s) v (run later w'))
               = Throw script_not_found
               /\ getOwnedScript (Scripts.id s) v (run later w')
                  = getOwnedScript absent v (run later w')).
Proof.
  split.
  - intros scriptId userId w. split.
    + intros [r [Hr [Hid Hu]]].
      destruct (getOwnedScript_some _ _ _ _ Hr Hid Hu) as [s Hs].
      exists s. split; [assumption |]. now apply getOwnedScript_ok.
    + intros Hno. rewrite getOwnedScript_missing; [reflexivity |].
      intros r Hr Hm. apply Hno. eauto.
  - intros i u amb w w' res later Hcreate.
    apply createScript_ok in Hcreate.
    destruct Hcreate as [u0 [s [Hctx [-> [_ [Hu [Hfresh Hdb]]]]]]].
    cbn in Hctx. injection Hctx as <-. cbn in Hu.
    destruct (getOwnedScript_fresh s w w' Hfresh Hdb) as [Hnow Hsole].
    rewrite Hu in Hnow, Hsole.
    exists s. split; [reflexivity |]. split; [exact Hnow |].
    pose proof (sole_owner_run _ _ later _ Hsole) as Hlater.
    destruct (sole_owner_resolves _ _ _ Hlater) as [Hyes Hother].
    split; [exact Hyes |].
    intros v absent Hv Habsent. rewrite (Hother v Hv). split; [reflexivity |].
    symmetry. apply getOwnedScript_missing.
    intros r Hr [Hid _]. apply Habsent. rewrite <- Hid. now apply in_map.
Qed.

(** C3: the (id, userId) pairs of the Scripts table, in storage order, are
    kept by every call and only ever extended at the end, over any history
    of calls; [updateScript] leaves them exactly as they were, whatever
    the patch. *)
Theorem script_owner_immutable :
  (forall (history : list Call) (w : World),
      exists created,
        map owner_key (tScripts (db (run history w)))
        = map owner_key (tScripts (db w)) ++ created)
  /\ (forall (i : updateScript.input) (ctx : Context) (amb : Ambient) (w : World),
         map owner_key (tScripts (db (snd (updateScript i ctx amb w))))
         = map owner_key (tScripts (db w))).
Proof.
  split.
  - intros history w. destruct (run_owner_keys history w) as [extra [H _]].
    now exists extra.
  - intros i ctx amb w. step_handler; try reflexivity.
    apply map_owner_key_set.
Qed.

(** ** Partial patches *)

Lemma spread_patched {A} (supplied : option A) (stored : A) :
  patched supplied stored (spread supplied stored).
Proof. now destruct supplied. Qed.

Lemma spread_opt_patched {A} (supplied stored : option A) :
  patched_opt supplied stored (spread_opt supplied stored).
Proof. now destruct supplied. Qed.

Create HintDb patch.

#[local] Hint Resolve spread_patched spread_opt_patched : patch.

Lemma Forall2_map_same {A} (R : A -> A -> Prop) (f : A -> A) (l : list A) :
  (forall a, R a (f a)) -> Forall2 R l (map f l).
Proof. intros H. induction l; cbn; constructor; auto. Qed.

Lemma object_refine_inr {I} (fields p : bool) (i parsed : I) :
  object_refine fields p i = inr parsed ->
  parsed = i /\ fields = true /\ p = true.
Proof.
  unfold object_refine. destruct fields, p; intros [=]; auto.
Qed.

Lemma object_inr {I} (fields : bool) (i parsed : I) :
  object fields i = inr parsed -> parsed = i /\ fields = true.
Proof.
  unfold object. destruct fields; intros [=]; auto.
Qed.

(** C4: a successful update touches one table only; there, every row
    other than the addressed one is kept as it is, and in the addressed
    row each column holds the supplied value when the patch has one and
    its stored value when the patch omits it (id, owner or parent link and
    createdAt are always kept; only updatedAt of a Script is rewritten
    besides the supplied columns). *)
Theorem update_patches_supplied_fields_only :
  (forall (i : updateScript.input) ctx amb (w w' : World) res,
      updateScript i ctx amb w = (Ok res, w') ->
      Forall2 (script_patched i) (tScripts (db w)) (tScripts (db w'))
      /\ tScriptVersions (db w') = tScriptVersions (db w)
      /\ tScriptElements (db w') = tScriptElements (db w))
  /\ (forall (i : updateScriptVersion.input) ctx amb (w w' : World) res,
         updateScriptVersion i ctx amb w = (Ok res, w') ->
         Forall2 (version_patched i)
           (tScriptVersions (db w)) (tScriptVersions (db w'))
         /\ tScripts (db w') = tScripts (db w)
         /\ tScriptElements (db w') = tScriptElements (db w))
  /\ (forall (i : updateScriptElement.input) ctx amb (w w' : World) res,
         updateScriptElement i ctx amb w = (Ok res, w') ->
         Forall2 (element_patched i)
           (tScriptElements (db w)) (tScriptElements (db w'))
         /\ tScripts (db w') = tScripts (db w)
         /\ tScriptVersions (db w') = tScriptVersions (db w)).
Proof.
  split; [| split]; intros i ctx amb w w' res; step_handler;
    intros [= <- <-]; cbn; (split; [| split; reflexivity]);
    apply Forall2_map_same; intros row.
  - unfold script_patched, Sql.eq. unfold updateScript.schema, updateScriptVersion.schema, updateScriptElement.schema in E;
    apply object_refine_inr in E; destruct E as [-> _].
    destruct (_ =? _)%string; [| reflexivity].
    cbn. repeat split; auto with patch.
  - unfold version_patched, Sql.eq. unfold updateScript.schema, updateScriptVersion.schema, updateScriptElement.schema in E;
    apply object_refine_inr in E; destruct E as [-> _].
    destruct (_ =? _)%string; [| reflexivity].
    cbn. repeat split; auto with patch.
  - unfold element_patched, Sql.eq. unfold updateScript.schema, updateScriptVersion.schema, updateScriptElement.schema in E;
    apply object_refine_inr in E; destruct E as [-> _].
    destruct (_ =? _)%string; [| reflexivity].
    cbn. repeat split; auto with patch.
Qed.

(** ** Empty patches *)

(** C5: a patch that supplies none of the updatable columns is rejected
    with a VALIDATION error, whoever calls, and the world is left as it
    was: no statement reaches the database and no row changes. *)
Theorem empty_patch_rejected :
  forall (ctx : Context) (amb : Ambient) (w : World),
    (forall id,
        exists e,
          updateScript
            {| updateScript.id := id;
               updateScript.title := None;
               updateScript.scriptType := None;
               updateScript.formatStandard := None;
               updateScript.logline := None;
               updateScript.status := None;
               updateScript.notes := None |} ctx amb w
          = (Throw e, w)
          /\ code e = VALIDATION)
    /\ (forall id scriptId,
           exists e,
             updateScriptVersion
               {| updateScriptVersion.id := id;
                  updateScriptVersion.scriptId := scriptId;
                  updateScriptVersion.versionLabel := None;
                  updateScriptVersion.isPreferred := None;
                  updateScriptVersion.rawContent := None;
                  updateScriptVersion.formattedContent := None |} ctx amb w
             = (Throw e, w)
             /\ code e = VALIDATION)
    /\ (forall id scriptId scriptVersionId,
           exists e,
             updateScriptElement
               {| updateScriptElement.id := id;
                  updateScriptElement.scriptId := scriptId;
                  updateScriptElement.scriptVersionId := scriptVersionId;
                  updateScriptElement.orderIndex := None;
                  updateScriptElement.elementType := None;
                  updateScriptElement.characterName := None;
                  updateScriptElement.content := None |} ctx amb w
             = (Throw e, w)
             /\ code e = VALIDATION).
Proof.
  intros ctx amb w. split; [| split]; intros.
  - destruct id; eexists; split; reflexivity.
  - destruct id, scriptId; eexists; split; reflexivity.
  - destruct id, scriptId, scriptVersionId; eexists; split; reflexivity.
Qed.

(** ** updatedAt *)

Lemma server_stamped (r : Request) (ctx : Context) (amb : Ambient)
  (w : World) (t : Date) :
  stamped_by t (db w) -> t <= now amb ->
  stamped_by (now amb) (db (snd (server r ctx amb w))).
Proof.
  intros Hst Ht.
  assert (Hweak : stamped_by (now amb) (db w)).
  { intros x Hx. specialize (Hst x Hx). lia. }
  destruct r; step_handler; try exact Hweak.
  - intros x Hx. cbn in Hx. apply in_app_or in Hx.
    destruct Hx as [Hx | [<- | []]]; [now apply Hweak | cbn; lia].
  - intros x Hx. cbn in Hx. apply in_map_iff in Hx.
    destruct Hx as [y [<- Hy]].
    destruct (Sql.eq _ _ y); [cbn; lia | now apply Hweak].
Qed.

Lemma run_stamped (history : list Call) (w : World) (t : Date) :
  stamped_by t (db w) -> chronological t history ->
  stamped_by (last_reading t history) (db (run history w)).
Proof.
  revert w t. induction history as [| c rest IH]; intros w t Hst Hchr; cbn.
  - exact Hst.
  - destruct Hchr as [Ht Hrest]. apply IH; [| exact Hrest].
    unfold serve. now apply server_stamped with (t := t).
Qed.

Lemma Forall2_map_in {A} (R : A -> A -> Prop) (f : A -> A) (l : list A) :
  (forall a, In a l -> R a (f a)) -> Forall2 R l (map f l).
Proof.
  intros H. induction l as [| x l IH]; cbn; constructor.
  - apply H. now left.
  - apply IH. intros a Ha. apply H. now right.
Qed.

(** C6, as stated, fails: [updateScript] writes the clock reading of the
    call whatever the stored value is.  A script created at clock reading
    5 and updated at clock reading 3 ends with an updatedAt lower than
    before, and the call succeeds. *)
Lemma updatedAt_can_go_back :
  exists s s',
    tScripts (db stamped_at_five) = [s]
    /\ updateScript only_status (signedIn "alice") (at_time 3 "")
         stamped_at_five
       = (Ok (Some s'),
          snd (updateScript only_status (signedIn "alice") (at_time 3 "")
                 stamped_at_five))
    /\ tScripts (db (snd (updateScript only_status (signedIn "alice")
                            (at_time 3 "") stamped_at_five))) = [s']
    /\ Scripts.id s' = Scripts.id s
    /\ Scripts.updatedAt s = 5
    /\ Scripts.updatedAt s' = 3
    /\ ~ Scripts.updatedAt s <= Scripts.updatedAt s'.
Proof.
  eexists. eexists. repeat (split; [reflexivity |]). cbn. lia.
Qed.

(** C6, amended: a successful [updateScript] returns the Script with its
    updatedAt set to the clock reading of the call, and stores that
    reading in the addressed row while every other row keeps its
    updatedAt; a failed call throws UNAUTHORIZED, NOT_FOUND or VALIDATION
    and leaves the database as it was.  The new updatedAt of the addressed
    row is no earlier than the one it replaces exactly when the clock
    reading of the call is no earlier than the stored one; this is so in
    every database built from the empty one by calls whose clock readings
    never go back. *)
Theorem updateScript_refreshes_updatedAt :
  (forall (i : updateScript.input) ctx amb (w w' : World) out,
      updateScript i ctx amb w = (out, w') ->
      match out with
      | Ok res =>
          (exists s, res = Some s
                     /\ Scripts.id s = updateScript.id i
                     /\ Scripts.updatedAt s = now amb)
          /\ Forall2 (refreshed i amb) (tScripts (db w)) (tScripts (db w'))
      | Throw e =>
          db w' = db w
          /\ In (code e) [UNAUTHORIZED; NOT_FOUND; VALIDATION]
      end)
  /\ (forall (i : updateScript.input) ctx amb (w w' : World) res,
         updateScript i ctx amb w = (Ok res, w') ->
         Forall2 (fun r r' =>
                    Scripts.id r' = Scripts.id r
                    /\ (Scripts.updatedAt r <= Scripts.updatedAt r'
                        <-> (Scripts.id r =? updateScript.id i)%string = false
                            \/ Scripts.updatedAt r <= now amb))
           (tScripts (db w)) (tScripts (db w')))
  /\ (forall (history : list Call) (t0 : Date)
             (i : updateScript.input) ctx amb (w' : World) res,
         chronological t0 history ->
         last_reading t0 history <= now amb ->
         updateScript i ctx amb (run history emptyWorld) = (Ok res, w') ->
         Forall2 (fun r r' => Scripts.id r' = Scripts.id r
                              /\ Scripts.updatedAt r <= Scripts.updatedAt r')
           (tScripts (db (run history emptyWorld))) (tScripts (db w'))).
Proof.
  split; [| split].
  - intros i ctx amb w w' out. destruct out as [res | e]; step_handler;
      intros H; try discriminate H; injection H as <- <-; cbn;
      try (split; [reflexivity | cbn; tauto]).
    unfold updateScript.schema in E. apply object_refine_inr in E.
    destruct E as [-> _]. split.
    + apply filter_hd_error in E2. destruct E2 as [Hin Hm].
      apply owner_filter_true in Hm. destruct Hm as [Hid _].
      assert (Hx : In r (filter (Sql.eq Scripts.id (updateScript.id i))
                           (tScripts (db w)))).
      { apply filter_In. split; [exact Hin |]. unfold Sql.eq.
        now apply String.eqb_eq. }
      destruct (filter (Sql.eq Scripts.id (updateScript.id i)) _)
        as [| x rest] eqn:Ef; [contradiction |].
      assert (Hx' : In x (filter (Sql.eq Scripts.id (updateScript.id i))
                            (tScripts (db w)))) by (rewrite Ef; now left).
      apply filter_In in Hx'. destruct Hx' as [_ Hx'].
      unfold Sql.eq in Hx'. apply String.eqb_eq in Hx'.
      eexists. split; [reflexivity |]. cbn. auto.
    + apply Forall2_map_same. intros row. unfold refreshed, Sql.eq.
      destruct (_ =? _)%string; cbn; auto.
  - intros i ctx amb w w' res. step_handler; intros [= <- <-]; cbn.
    unfold updateScript.schema in E. apply object_refine_inr in E.
    destruct E as [-> _].
    apply Forall2_map_same. intros row. unfold Sql.eq.
    destruct (_ =? _)%string; cbn; split; try reflexivity.
    + split; [auto | intros [Hf | Hle]; [discriminate | exact Hle]].
    + split; [auto | intros _; lia].
  - intros history t0 i ctx amb w' res Hchr Hlast Hup.
    assert (Hst : stamped_by (last_reading t0 history)
                    (db (run history emptyWorld))).
    { apply run_stamped; [| exact Hchr]. intros r []. }
    revert Hup. step_handler; intros [= <- <-]; cbn.
    apply Forall2_map_in. intros x Hx. specialize (Hst x Hx).
    destruct (Sql.eq _ _ x); cbn; split; auto; lia.
Qed.

(** ** Deleting *)

Lemma filter_length_zero {A} (p : A -> bool) (l : list A) :
  length (filter p l) = 0%nat -> forall a, In a l -> p a = false.
Proof.
  intros H. apply filter_hd_error_none.
  destruct (filter p l); [reflexivity | discriminate].
Qed.

Lemma filter_length_pos {A} (p : A -> bool) (l : list A) :
  length (filter p l) <> 0%nat -> exists a, In a l /\ p a = true.
Proof.
  destruct (filter p l) as [| a rest] eqn:E; [cbn; intros H; now contradiction H |].
  intros _. exists a. apply filter_In. rewrite E. now left.
Qed.

(** C7: when no stored row carries the requested id, so that deleting by
    id would affect zero rows, [deleteScriptVersion] and
    [deleteScriptElement] never answer with success: a signed-in caller
    with valid input who owns the Script gets NOT_FOUND for the missing
    version, and one who also names an existing version of that Script
    gets NOT_FOUND for the missing element.  A success means a row with
    that id was stored and none is left. *)
Theorem delete_of_nothing_is_not_found :
  (forall (i : deleteScriptVersion.input) ctx amb (w : World),
      (forall v, In v (tScriptVersions (db w)) ->
                 ScriptVersions.id v <> deleteScriptVersion.id i) ->
      fst (deleteScriptVersion i ctx amb w) <> Ok tt
      /\ forall u s w1,
          ctx = signedIn u ->
          deleteScriptVersion.schema i = inr i ->
          getOwnedScript (deleteScriptVersion.scriptId i) u w = (Ok s, w1) ->
          fst (deleteScriptVersion i ctx amb w) = Throw version_not_found)
  /\ (forall (i : deleteScriptElement.input) ctx amb (w : World),
         (forall e, In e (tScriptElements (db w)) ->
                    ScriptElements.id e <> deleteScriptElement.id i) ->
         fst (deleteScriptElement i ctx amb w) <> Ok tt
         /\ forall u v w1,
             ctx = signedIn u ->
             deleteScriptElement.schema i = inr i ->
             getOwnedVersion (deleteScriptElement.scriptVersionId i)
               (deleteScriptElement.scriptId i) u w = (Ok v, w1) ->
             fst (deleteScriptElement i ctx amb w) = Throw element_not_found)
  /\ (forall (i : deleteScriptVersion.input) ctx amb (w w' : World),
         deleteScriptVersion i ctx amb w = (Ok tt, w') ->
         (exists v, In v (tScriptVersions (db w))
                    /\ ScriptVersions.id v = deleteScriptVersion.id i)
         /\ forall v, In v (tScriptVersions (db w')) ->
                      ScriptVersions.id v <> deleteScriptVersion.id i)
  /\ (forall (i : deleteScriptElement.input) ctx amb (w w' : World),
         deleteScriptElement i ctx amb w = (Ok tt, w') ->
         (exists e, In e (tScriptElements (db w))
                    /\ ScriptElements.id e = deleteScriptElement.id i)
         /\ forall e, In e (tScriptElements (db w')) ->
                      ScriptElements.id e <> deleteScriptElement.id i)
  /\ code version_not_found = NOT_FOUND
  /\ code element_not_found = NOT_FOUND.
Proof.
  split; [| split; [| split; [| split; [| split; reflexivity]]]].
  - intros i ctx amb w Hnone. split.
    + step_handler; try discriminate.
      exfalso. apply filter_hd_error in E3. destruct E3 as [Hin Hm].
      unfold Sql.and, Sql.eq in Hm. apply andb_true_iff in Hm.
      destruct Hm as [Hm _]. apply String.eqb_eq in Hm.
      unfold deleteScriptVersion.schema in E. apply object_inr in E.
      destruct E as [-> _]. exact (Hnone _ Hin Hm).
    + intros u s w1 -> Hvalid Hown. unfold deleteScriptVersion, defineAction.
      rewrite Hvalid. unfold deleteScriptVersion.handler, getOwnedVersion.
      unfold bind at 1. cbn. unfold bind at 1. unfold bind at 1.
      rewrite Hown. unfold bind at 1.
      unfold select, first. cbn. rewrite filter_none; [reflexivity |].
      intros v Hv. unfold Sql.and, Sql.eq.
      replace (db w1) with (db w) in Hv.
      * specialize (Hnone v Hv). apply String.eqb_neq in Hnone.
        now rewrite Hnone.
      * pose proof (getOwnedScript_db (deleteScriptVersion.scriptId i) u w) as Hd.
        rewrite Hown in Hd. cbn in Hd. now subst w1.
  - intros i ctx amb w Hnone.
    assert (Hzero : filter (Sql.eq ScriptElements.id (deleteScriptElement.id i))
                      (tScriptElements (db w)) = []).
    { apply filter_none. intros e He. unfold Sql.eq.
      apply String.eqb_neq. now apply Hnone. }
    split.
    + step_handler; try discriminate.
      unfold deleteScriptElement.schema in E. apply object_inr in E.
      destruct E as [-> _]. cbn in E4. rewrite Hzero in E4. discriminate.
    + intros u v w1 -> Hvalid Hown. unfold deleteScriptElement, defineAction.
      rewrite Hvalid. unfold deleteScriptElement.handler.
      unfold bind at 1. cbn. unfold bind at 1. rewrite Hown.
      unfold bind, delete. cbn.
      replace (db w1) with (db w); [now rewrite Hzero |].
      revert Hown. clear. step_handler; intros [= <- <-]; reflexivity.
  - intros i ctx amb w w'. step_handler; intros [=]; subst w'; cbn.
    unfold deleteScriptVersion.schema in E. apply object_inr in E.
    destruct E as [-> _]. split.
    + apply Nat.eqb_neq in E5. apply filter_length_pos in E5.
      destruct E5 as [v [Hv Hm]]. exists v. split; [exact Hv |].
      now apply String.eqb_eq.
    + intros v Hv. apply filter_In in Hv. destruct Hv as [_ Hm].
      unfold Sql.eq in Hm. apply negb_true_iff in Hm.
      now apply String.eqb_neq.
  - intros i ctx amb w w'. step_handler; intros [=]; subst w'; cbn.
    unfold deleteScriptElement.schema in E. apply object_inr in E.
    destruct E as [-> _]. split.
    + apply Nat.eqb_neq in E4. apply filter_length_pos in E4.
      destruct E4 as [v [Hv Hm]]. exists v. split; [exact Hv |].
      now apply String.eqb_eq.
    + intros v Hv. apply filter_In in Hv. destruct Hv as [_ Hm].
      unfold Sql.eq in Hm. apply negb_true_iff in Hm.
      now apply String.eqb_neq.
Qed.

(** ** Listing versions *)

Lemma filter_and {A} (p q : A -> bool) (l : list A) :
  filter (Sql.and p q) l = filter q (filter p l).
Proof.
  induction l as [| x l IH]; [reflexivity |].
  unfold Sql.and in *. cbn. destruct (p x); cbn; [| exact IH].
  destruct (q x); now rewrite IH.
Qed.

(** C8: on the same store and for the same caller, [listScriptVersions]
    with [preferredOnly = true] fails exactly as the unfiltered call does,
    and otherwise returns exactly the items of the unfiltered call whose
    isPreferred is true, in the same order, with their count. *)
Theorem listScriptVersions_preferred_subset :
  forall (scriptId : string) (ctx : Context) (amb : Ambient) (w : World),
    match fst (listScriptVersions (only false scriptId) ctx amb w),
          fst (listScriptVersions (only true scriptId) ctx amb w) with
    | Ok (all, _), Ok (preferred, total) =>
        preferred = filter ScriptVersions.isPreferred all
        /\ total = length preferred
        /\ incl preferred all
        /\ Forall (fun v => ScriptVersions.isPreferred v = true) preferred
    | Throw e, Throw e' => e = e'
    | _, _ => False
    end.
Proof.
  intros scriptId ctx amb w. unfold_handlers.
  unfold listScriptVersions.schema, object, only. cbn -[min1].
  destruct (min1 scriptId); cbn; [| reflexivity].
  destruct (locals ctx) as [l |]; cbn; [| reflexivity].
  destruct (user l) as [u |]; cbn; [| reflexivity].
  storage_facts. cbn.
  destruct (hd_error _); cbn; [| reflexivity].
  storage_facts. cbn.
  rewrite filter_and.
  assert (Hpref : forall l0 : list ScriptVersions.row,
             filter (Sql.eq_bool ScriptVersions.isPreferred true) l0
             = filter ScriptVersions.isPreferred l0).
  { intros l0. apply filter_ext. intros v. unfold Sql.eq_bool.
    now destruct (ScriptVersions.isPreferred v). }
  rewrite Hpref. repeat split.
  - intros v Hv. now apply filter_In in Hv.
  - apply Forall_forall. intros v Hv. now apply filter_In in Hv.
Qed.

(** ** Anonymous callers *)

(** C9, as stated, fails: an anonymous [createScript] with an empty title
    is answered with VALIDATION, not UNAUTHORIZED. *)
Lemma anonymous_invalid_request_gets_validation :
  caller anonymous = None
  /\ server (CreateScript untitled) anonymous
       {| now := 0; randomUUID := "a" |} emptyWorld
     = (Throw (invalid too_short), emptyWorld)
  /\ code (invalid too_short) = VALIDATION
  /\ ~ (forall (r : Request) (ctx : Context) (amb : Ambient) (w : World),
           caller ctx = None ->
           exists e, fst (server r ctx amb w) = Throw e
                     /\ code e = UNAUTHORIZED).
Proof.
  split; [reflexivity |]. split; [reflexivity |]. split; [reflexivity |].
  intros H.
  destruct (H (CreateScript untitled) anonymous
              {| now := 0; randomUUID := "a" |} emptyWorld Logic.eq_refl)
    as [e [He Hcode]].
  cbn in He. injection He as <-. discriminate Hcode.
Qed.

(** C9, amended: the input schema of an action is checked before the
    caller.  A request that does not pass it fails with VALIDATION,
    whether or not a caller identity is present; a request that passes it
    and carries no caller identity fails with UNAUTHORIZED.  Either way
    the world is left as it was, so no ownership resolution and no storage
    access took place. *)
Theorem schema_is_checked_before_the_caller :
  forall (r : Request) (ctx : Context) (amb : Ambient) (w : World),
    if valid r
    then caller ctx = None ->
         server r ctx amb w = (Throw unauthorized, w)
         /\ code unauthorized = UNAUTHORIZED
    else exists e, server r ctx amb w = (Throw e, w) /\ code e = VALIDATION.
Proof.
  intros r ctx amb w.
  assert (Hreq : caller ctx = None ->
                 forall w0, requireUser ctx w0 = (Throw unauthorized, w0)).
  { intros Hanon w0. unfold requireUser, throw, caller in *.
    destruct (locals ctx); [rewrite Hanon |]; reflexivity. }
  destruct r; cbn [valid server];
    unfold respond, createScript, updateScript, listScripts,
      createScriptVersion, updateScriptVersion, deleteScriptVersion,
      listScriptVersions, createScriptElement, updateScriptElement,
      deleteScriptElement, listScriptElements, defineAction;
    match goal with
    | |- context [accepted ?s] => destruct s as [issue | parsed] eqn:E
    end; cbn [accepted].
  all: try (exists (invalid issue); split; reflexivity).
  all: intros Hanon; split; [| reflexivity].
  all: unfold createScript.handler, updateScript.handler, listScripts.handler,
    createScriptVersion.handler, updateScriptVersion.handler,
    deleteScriptVersion.handler, listScriptVersions.handler,
    createScriptElement.handler, updateScriptElement.handler,
    deleteScriptElement.handler, listScriptElements.handler, bind;
    now rewrite (Hreq Hanon).
Qed.

(** ** The ownership chain of element actions *)

(** C1: the element named by a request is looked up by its id alone.  In
    the store of the worked history the only element belongs to Alice's
    version "v-alice"; Bob, claiming his own script "s-bob" and version
    "v-bob", deletes it with [deleteScriptElement] and rewrites its
    content with [updateScriptElement], and both calls succeed. *)
Theorem element_actions_reach_other_versions :
  tScriptElements (db two_tenants_world) = [alice_element]
  /\ ScriptElements.scriptVersionId alice_element
     <> deleteScriptElement.scriptVersionId bob_deletes_alice_element
  /\ (let r := deleteScriptElement bob_deletes_alice_element (signedIn "bob")
                 (at_time 6 "") two_tenants_world in
      fst r = Ok tt /\ tScriptElements (db (snd r)) = [])
  /\ (let r := updateScriptElement bob_rewrites_alice_element (signedIn "bob")
                 (at_time 6 "") two_tenants_world in
      exists e,
        fst r = Ok (Some e)
        /\ tScriptElements (db (snd r)) = [e]
        /\ ScriptElements.id e = "e-alice"
        /\ ScriptElements.scriptVersionId e = "v-alice"
        /\ ScriptElements.content e = "EXT. MOON").
Proof.
  split; [reflexivity |]. split; [discriminate |].
  split; [split; reflexivity |].
  eexists. repeat split; reflexivity.
Qed.

(** ** Raw content *)

(** C10: [createScriptVersion] rejects an empty rawContent with a
    VALIDATION error and sends nothing to the database, whereas the schema
    of [updateScriptVersion] lets [rawContent = ""] through whenever the
    two ids are non-empty; a create followed by such an update, both
    successful, leaves a stored ScriptVersion whose rawContent is the
    empty string. *)
Theorem rawContent_can_be_emptied :
  (forall scriptId versionLabel isPreferred formattedContent ctx amb w,
      createScriptVersion
        {| createScriptVersion.scriptId := scriptId;
           createScriptVersion.versionLabel := versionLabel;
           createScriptVersion.isPreferred := isPreferred;
           createScriptVersion.rawContent := "";
           createScriptVersion.formattedContent := formattedContent |}
        ctx amb w
      = (Throw (invalid too_short), w))
  /\ code (invalid too_short) = VALIDATION
  /\ (forall id scriptId,
         accepted (updateScriptVersion.schema (empties_raw id scriptId))
         = min1 id && min1 scriptId)
  /\ Forall (fun o => exists d, o = Ok d) (outcomes emptying emptyWorld)
  /\ tScriptVersions (db (run emptying emptyWorld)) = [emptied_version]
  /\ ScriptVersions.rawContent emptied_version = "".
Proof.
  split.
  { intros. unfold createScriptVersion, defineAction,
      createScriptVersion.schema, object.
    cbn -[min1]. now rewrite andb_false_r. }
  split; [reflexivity |]. split.
  { intros id scriptId. unfold updateScriptVersion.schema, object_refine.
    cbn -[min1]. now destruct (min1 id && min1 scriptId). }
  split; [| split; reflexivity].
  cbn. repeat constructor; eexists; reflexivity.
Qed.

Lemma version_filter_true (versionId scriptId : string) (v : ScriptVersions.row) :
  Sql.and (Sql.eq ScriptVersions.id versionId)
          (Sql.eq ScriptVersions.scriptId scriptId) v = true
  <-> ScriptVersions.id v = versionId /\ ScriptVersions.scriptId v = scriptId.
Proof.
  unfold Sql.and, Sql.eq. rewrite andb_true_iff, !String.eqb_eq. tauto.
Qed.

Lemma getOwnedVersion_ok (versionId scriptId userId : string) (w w' : World)
  (v : ScriptVersions.row) :
  getOwnedVersion versionId scriptId userId w = (Ok v, w') ->
  db w' = db w /\ chain_resolves userId scriptId versionId (db w).
Proof.
  step_handler; intros [= <- <-]; cbn. split; [reflexivity |].
  apply filter_hd_error in E, E0.
  destruct E as [Hs Hsm], E0 as [Hv Hvm].
  apply owner_filter_true in Hsm. apply version_filter_true in Hvm.
  split; eauto.
Qed.

Lemma getOwnedVersion_throws (versionId scriptId userId : string) (w : World) :
  ~ chain_resolves userId scriptId versionId (db w) ->
  exists e, fst (getOwnedVersion versionId scriptId userId w) = Throw e
            /\ code e = NOT_FOUND.
Proof.
  intros Hno.
  destruct (getOwnedVersion versionId scriptId userId w) as [[v | e] w'] eqn:E.
  - apply getOwnedVersion_ok in E. tauto.
  - exists e. split; [reflexivity |]. revert E.
    step_handler; intros [= <- <-]; reflexivity.
Qed.


(** ** The theorems at work on the worked history *)

Lemma getOwnedScript_owner_only_witness :
  (exists s, fst (getOwnedScript "s-alice" "alice" two_tenants_world) = Ok s
             /\ In s (tScripts (db two_tenants_world))
             /\ Scripts.id s = "s-alice" /\ Scripts.userId s = "alice")
  /\ fst (getOwnedScript "s-alice" "bob" two_tenants_world)
     = Throw script_not_found
  /\ createScript (titled "Heist") (signedIn "alice") (at_time 1 "s-alice")
       emptyWorld
     = (Ok (Some alice_script), after_heist)
  /\ exists s,
      Some alice_script = Some s
      /\ fst (getOwnedScript (Scripts.id s) "alice" after_heist) = Ok s
      /\ (exists s',
             fst (getOwnedScript (Scripts.id s) "alice"
                    (run later_calls after_heist)) = Ok s'
             /\ Scripts.id s' = Scripts.id s /\ Scripts.userId s' = "alice")
      /\ forall v absent : string,
          v <> "alice" ->
          ~ In absent
              (map Scripts.id (tScripts (db (run later_calls after_heist)))) ->
          fst (getOwnedScript (Scripts.id s) v (run later_calls after_heist))
          = Throw script_not_found
          /\ getOwnedScript (Scripts.id s) v (run later_calls after_heist)
             = getOwnedScript absent v (run later_calls after_heist).
Proof.
  split; [| split; [| split]].
  - apply (proj1 (proj1 getOwnedScript_owner_only
                    "s-alice" "alice" two_tenants_world)).
    exists alice_script. split; [left; reflexivity | split; reflexivity].
  - apply (proj2 (proj1 getOwnedScript_owner_only
                    "s-alice" "bob" two_tenants_world)).
    intros [r [Hr [Hid Hu]]]. cbn in Hr.
    destruct Hr as [<- | [<- | []]]; [discriminate Hu | discriminate Hid].
  - reflexivity.
  - apply (proj2 getOwnedScript_owner_only (titled "Heist") "alice"
             (at_time 1 "s-alice") emptyWorld after_heist
             (Some alice_script) later_calls).
    reflexivity.
Defined.

Lemma update_patches_supplied_fields_only_witness :
  (let r := updateScript only_status (signedIn "alice") (at_time 7 "")
              two_tenants_world in
   exists res,
     r = (Ok res, snd r)
     /\ Forall2 (script_patched only_status)
          (tScripts (db two_tenants_world)) (tScripts (db (snd r)))
     /\ tScriptVersions (db (snd r)) = tScriptVersions (db two_tenants_world)
     /\ tScriptElements (db (snd r)) = tScriptElements (db two_tenants_world))
  /\ (let r := updateScriptVersion only_preferred (signedIn "alice")
                 (at_time 7 "") two_tenants_world in
      exists res,
        r = (Ok res, snd r)
        /\ Forall2 (version_patched only_preferred)
             (tScriptVersions (db two_tenants_world))
             (tScriptVersions (db (snd r)))
        /\ tScripts (db (snd r)) = tScripts (db two_tenants_world)
        /\ tScriptElements (db (snd r)) = tScriptElements (db two_tenants_world))
  /\ (let r := updateScriptElement only_content (signedIn "alice")
                 (at_time 7 "") two_tenants_world in
      exists res,
        r = (Ok res, snd r)
        /\ Forall2 (element_patched only_content)
             (tScriptElements (db two_tenants_world))
             (tScriptElements (db (snd r)))
        /\ tScripts (db (snd r)) = tScripts (db two_tenants_world)
        /\ tScriptVersions (db (snd r)) = tScriptVersions (db two_tenants_world)).
Proof.
  split; [| split]; cbv zeta; eexists; (split; [reflexivity |]).
  - exact (proj1 update_patches_supplied_fields_only only_status
             (signedIn "alice") (at_time 7 "") two_tenants_world _ _
             Logic.eq_refl).
  - exact (proj1 (proj2 update_patches_supplied_fields_only) only_preferred
             (signedIn "alice") (at_time 7 "") two_tenants_world _ _
             Logic.eq_refl).
  - exact (proj2 (proj2 update_patches_supplied_fields_only) only_content
             (signedIn "alice") (at_time 7 "") two_tenants_world _ _
             Logic.eq_refl).
Defined.

Lemma updateScript_refreshes_updatedAt_witness :
  (let r := updateScript only_status (signedIn "alice") (at_time 7 "")
              two_tenants_world in
   exists res,
     r = (Ok res, snd r)
     /\ (exists s, res = Some s
                   /\ Scripts.id s = "s-alice" /\ Scripts.updatedAt s = 7)
     /\ Forall2 (refreshed only_status (at_time 7 ""))
          (tScripts (db two_tenants_world)) (tScripts (db (snd r))))
  /\ (let r := updateScript only_status (signedIn "bob") (at_time 7 "")
                 two_tenants_world in
      r = (Throw script_not_found, snd r)
      /\ db (snd r) = db two_tenants_world
      /\ In (code script_not_found) [UNAUTHORIZED; NOT_FOUND; VALIDATION])
  /\ (let r := updateScript only_status (signedIn "alice") (at_time 3 "")
                 stamped_at_five in
      exists res,
        r = (Ok res, snd r)
        /\ Forall2 (fun r0 r' =>
                      Scripts.id r' = Scripts.id r0
                      /\ (Scripts.updatedAt r0 <= Scripts.updatedAt r'
                          <-> (Scripts.id r0 =? "s-alice")%string = false
                              \/ Scripts.updatedAt r0 <= 3))
             (tScripts (db stamped_at_five)) (tScripts (db (snd r))))
  /\ (let r := updateScript only_status (signedIn "alice") (at_time 7 "")
                 (run two_tenants emptyWorld) in
      chronological 0 two_tenants
      /\ last_reading 0 two_tenants <= 7
      /\ exists res,
          r = (Ok res, snd r)
          /\ Forall2 (fun r0 r' => Scripts.id r' = Scripts.id r0
                                   /\ Scripts.updatedAt r0 <= Scripts.updatedAt r')
               (tScripts (db (run two_tenants emptyWorld)))
               (tScripts (db (snd r)))).
Proof.
  split; [| split; [| split]]; cbv zeta.
  - eexists. split; [reflexivity |].
    exact (proj1 updateScript_refreshes_updatedAt only_status
             (signedIn "alice") (at_time 7 "") two_tenants_world _ _
             Logic.eq_refl).
  - split; [reflexivity |].
    exact (proj1 updateScript_refreshes_updatedAt only_status
             (signedIn "bob") (at_time 7 "") two_tenants_world _ _
             Logic.eq_refl).
  - eexists. split; [reflexivity |].
    exact (proj1 (proj2 updateScript_refreshes_updatedAt) only_status
             (signedIn "alice") (at_time 3 "") stamped_at_five _ _
             Logic.eq_refl).
  - assert (Hchr : chronological 0 two_tenants) by (cbn; lia).
    assert (Hlast : last_reading 0 two_tenants <= 7) by (cbn; lia).
    split; [exact Hchr |]. split; [exact Hlast |].
    eexists. split; [reflexivity |].
    exact (proj2 (proj2 updateScript_refreshes_updatedAt) two_tenants 0
             only_status
             (signedIn "alice") (at_time 7 "") _ _ Hchr Hlast Logic.eq_refl).
Defined.

Lemma delete_of_nothing_is_not_found_witness :
  (fst (deleteScriptVersion missing_version (signedIn "alice") (at_time 7 "")
          two_tenants_world) <> Ok tt
   /\ fst (deleteScriptVersion missing_version (signedIn "alice") (at_time 7 "")
             two_tenants_world) = Throw version_not_found)
  /\ (fst (deleteScriptElement missing_element (signedIn "alice") (at_time 7 "")
             two_tenants_world) <> Ok tt
      /\ fst (deleteScriptElement missing_element (signedIn "alice")
                (at_time 7 "") two_tenants_world) = Throw element_not_found)
  /\ (let r := deleteScriptVersion stored_version (signedIn "bob")
                 (at_time 7 "") two_tenants_world in
      r = (Ok tt, snd r)
      /\ (exists v, In v (tScriptVersions (db two_tenants_world))
                    /\ ScriptVersions.id v = "v-bob")
      /\ forall v, In v (tScriptVersions (db (snd r))) ->
                   ScriptVersions.id v <> "v-bob")
  /\ (let r := deleteScriptElement stored_element (signedIn "alice")
                 (at_time 7 "") two_tenants_world in
      r = (Ok tt, snd r)
      /\ (exists e, In e (tScriptElements (db two_tenants_world))
                    /\ ScriptElements.id e = "e-alice")
      /\ forall e, In e (tScriptElements (db (snd r))) ->
                   ScriptElements.id e <> "e-alice").
Proof.
  assert (Hv : forall v, In v (tScriptVersions (db two_tenants_world)) ->
                         ScriptVersions.id v <> "v-none").
  { intros v Hin. cbn in Hin. destruct Hin as [<- | [<- | []]]; discriminate. }
  assert (He : forall e, In e (tScriptElements (db two_tenants_world)) ->
                         ScriptElements.id e <> "e-none").
  { intros e Hin. cbn in Hin. destruct Hin as [<- | []]. discriminate. }
  destruct delete_of_nothing_is_not_found as [D1 [D2 [D3 [D4 _]]]].
  split; [| split; [| split]]; cbv zeta.
  - destruct (D1 missing_version (signedIn "alice") (at_time 7 "")
                two_tenants_world Hv) as [Hne Hnf].
    split; [exact Hne |].
    exact (Hnf "alice" _ _ Logic.eq_refl Logic.eq_refl Logic.eq_refl).
  - destruct (D2 missing_element (signedIn "alice") (at_time 7 "")
                two_tenants_world He) as [Hne Hnf].
    split; [exact Hne |].
    exact (Hnf "alice" _ _ Logic.eq_refl Logic.eq_refl Logic.eq_refl).
  - split; [reflexivity |].
    exact (D3 stored_version (signedIn "bob") (at_time 7 "")
             two_tenants_world _ Logic.eq_refl).
  - split; [reflexivity |].
    exact (D4 stored_element (signedIn "alice") (at_time 7 "")
             two_tenants_world _ Logic.eq_refl).
Defined.

Lemma schema_is_checked_before_the_caller_witness :
  (valid ListScripts = true
   /\ caller anonymous = None
   /\ server ListScripts anonymous (at_time 7 "") two_tenants_world
      = (Throw unauthorized, two_tenants_world)
   /\ code unauthorized = UNAUTHORIZED)
  /\ (valid (CreateScript untitled) = false
      /\ (exists e,
             server (CreateScript untitled) anonymous (at_time 7 "")
               two_tenants_world
             = (Throw e, two_tenants_world)
             /\ code e = VALIDATION)
      /\ (exists e,
             server (CreateScript untitled) (signedIn "alice") (at_time 7 "")
               two_tenants_world
             = (Throw e, two_tenants_world)
             /\ code e = VALIDATION)).
Proof.
  split.
  - split; [reflexivity |]. split; [reflexivity |].
    exact (schema_is_checked_before_the_caller ListScripts anonymous
             (at_time 7 "") two_tenants_world Logic.eq_refl).
  - split; [reflexivity |]. split.
    + exact (schema_is_checked_before_the_caller (CreateScript untitled)
               anonymous (at_time 7 "") two_tenants_world).
    + exact (schema_is_checked_before_the_caller (CreateScript untitled)
               (signedIn "alice") (at_time 7 "") two_tenants_world).
Defined.

(** * Further properties of the handlers *)

(** ** What a call leaves alone *)

Lemma with_rows_same :
  forall d : DB,
    with_rows ScriptsT (tScripts d) d = d
    /\ with_rows ScriptVersionsT (tScriptVersions d) d = d
    /\ with_rows ScriptElementsT (tScriptElements d) d = d.
Proof. now destruct d. Qed.

Lemma filter_negb_none {A} (p : A -> bool) (l : list A) :
  length (filter p l) = 0%nat -> filter (fun a => negb (p a)) l = l.
Proof.
  induction l as [| x l IH]; cbn; [reflexivity |].
  destruct (p x); cbn; [discriminate |]. intros H. now rewrite IH.
Qed.

(** X1: a call that throws one of the typed errors (UNAUTHORIZED,
    NOT_FOUND, VALIDATION) leaves every table as it was, and so does any
    throwing call of an action other than [createScriptElement] and
    [updateScriptElement]; those two write before the client reads the
    element back, so that they alone can throw after the table changed. *)
Theorem thrown_call_keeps_database :
  forall (r : Request) (ctx : Context) (amb : Ambient) (w w' : World)
         (e : ActionError),
    server r ctx amb w = (Throw e, w') ->
    code e <> INTERNAL_SERVER_ERROR \/ reads_back_integer r = false ->
    db w' = db w.
Proof.
  intros r ctx amb w w' e H Hor. revert H. destruct r; step_handler;
    intros H; try discriminate H; injection H as <- <-; cbn;
    try reflexivity;
    try (destruct Hor as [Hc | Hc]; [now contradiction Hc | discriminate Hc]).
  - apply Nat.eqb_eq in E5. cbn in E5. rewrite (filter_negb_none _ _ E5).
    apply with_rows_same.
  - apply Nat.eqb_eq in E4. cbn in E4. rewrite (filter_negb_none _ _ E4).
    apply with_rows_same.
Qed.

Lemma thrown_call_keeps_database_witness :
  server (DeleteScriptElement missing_element) (signedIn "alice")
    (at_time 7 "") two_tenants_world
  = (Throw element_not_found,
     snd (server (DeleteScriptElement missing_element) (signedIn "alice")
            (at_time 7 "") two_tenants_world))
  /\ (code element_not_found <> INTERNAL_SERVER_ERROR
      \/ reads_back_integer (DeleteScriptElement missing_element) = false)
  /\ db (snd (server (DeleteScriptElement missing_element) (signedIn "alice")
                (at_time 7 "") two_tenants_world))
     = db two_tenants_world.
Proof.
  assert (Hor : code element_not_found <> INTERNAL_SERVER_ERROR
                \/ reads_back_integer (DeleteScriptElement missing_element)
                   = false) by (right; reflexivity).
  split; [reflexivity |]. split; [exact Hor |].
  exact (thrown_call_keeps_database (DeleteScriptElement missing_element)
           (signedIn "alice") (at_time 7 "") two_tenants_world _ _
           Logic.eq_refl Hor).
Defined.

Ltac name_sent w :=
  unfold sent; cbn [db trace]; rewrite <- ?app_assoc; cbn [app];
  first [ eexists; repeat split; reflexivity
        | exists []; rewrite app_nil_r; repeat split; reflexivity ].

(** X2: the three listing actions never write: whether they return or
    throw, the database is the one they were given and every statement
    they sent is a select. *)
Theorem listings_only_read :
  forall (ctx : Context) (amb : Ambient) (w : World),
    (exists sent,
        db (snd (listScripts tt ctx amb w)) = db w
        /\ trace (snd (listScripts tt ctx amb w)) = trace w ++ sent
        /\ existsb is_write sent = false)
    /\ (forall i, exists sent,
           db (snd (listScriptVersions i ctx amb w)) = db w
           /\ trace (snd (listScriptVersions i ctx amb w)) = trace w ++ sent
           /\ existsb is_write sent = false)
    /\ (forall i, exists sent,
           db (snd (listScriptElements i ctx amb w)) = db w
           /\ trace (snd (listScriptElements i ctx amb w)) = trace w ++ sent
           /\ existsb is_write sent = false).
Proof.
  intros ctx amb w. split; [| split]; intros; step_handler; name_sent w.
Qed.

(** X3: a call sends at most four statements, at most one of them a
    write, and the write, when there is one, is the last statement of the
    call. *)
Theorem one_write_per_call :
  forall (r : Request) (ctx : Context) (amb : Ambient) (w : World),
    exists sent,
      trace (snd (server r ctx amb w)) = trace w ++ sent
      /\ (length sent <= 4)%nat
      /\ (length (filter is_write sent) <= 1)%nat
      /\ existsb is_write (removelast sent) = false.
Proof.
  intros r ctx amb w. destruct r; step_handler;
    unfold sent; cbn [db trace]; rewrite <- ?app_assoc; cbn [app];
    first [ eexists; split; [reflexivity | cbn; repeat split; lia]
          | exists []; rewrite app_nil_r; cbn; repeat split; lia ].
Qed.

(** ** Invariants of the store *)

Lemma NoDup_map_snoc {A} (key : A -> string) (l : list A) (a : A) :
  NoDup (map key l) -> ~ In (key a) (map key l) -> NoDup (map key (l ++ [a])).
Proof.
  intros Hl Hfresh. rewrite map_app. cbn.
  apply NoDup_app; [exact Hl | repeat constructor; intros [] |].
  intros k Hk [<- | []]. contradiction.
Qed.

Lemma NoDup_map_filter {A} (key : A -> string) (p : A -> bool) (l : list A) :
  NoDup (map key l) -> NoDup (map key (filter p l)).
Proof.
  induction l as [| x l IH]; cbn; [auto |].
  intros H. inversion H as [| k ks Hnin Hrest]; subst.
  destruct (p x); cbn; [| auto].
  constructor; [| auto].
  intros Hin. apply Hnin. apply in_map_iff in Hin.
  destruct Hin as [y [Hy Hin]]. apply filter_In in Hin.
  rewrite <- Hy. apply in_map. tauto.
Qed.

Lemma map_key_set {A} (key : A -> string) (set : A -> A) (p : A -> bool)
  (l : list A) :
  (forall a, key (set a) = key a) ->
  map key (map (fun a => if p a then set a else a) l) = map key l.
Proof.
  intros Hkey. rewrite map_map. apply map_ext. intros a.
  destruct (p a); [apply Hkey | reflexivity].
Qed.

Lemma server_keys_unique (r : Request) (ctx : Context) (amb : Ambient)
  (w : World) :
  keys_unique (db w) -> keys_unique (db (snd (server r ctx amb w))).
Proof.
  intros [Hs [Hv He]]. unfold keys_unique.
  destruct r; step_handler; cbn; repeat split; try assumption;
    first [ apply NoDup_map_snoc; [assumption | now apply existsb_pkey_false]
          | rewrite map_key_set; [assumption | reflexivity]
          | now apply NoDup_map_filter ].
Qed.

(** X4: primary keys stay unique: if no table holds two rows with the
    same id, no history of calls makes one do so. *)
Theorem primary_keys_stay_unique :
  forall (history : list Call) (w : World),
    keys_unique (db w) -> keys_unique (db (run history w)).
Proof.
  induction history as [| c rest IH]; intros w H; cbn; [exact H |].
  apply IH. unfold serve. now apply server_keys_unique.
Qed.

Lemma primary_keys_stay_unique_witness :
  keys_unique (db emptyWorld) /\ keys_unique (db (run two_tenants emptyWorld)).
Proof.
  assert (H : keys_unique (db emptyWorld)) by (repeat split; constructor).
  split; [exact H |].
  exact (primary_keys_stay_unique two_tenants emptyWorld H).
Defined.

Lemma server_versions_anchored (r : Request) (ctx : Context) (amb : Ambient)
  (w : World) :
  versions_anchored (db w) -> versions_anchored (db (snd (server r ctx amb w))).
Proof.
  intros H. unfold versions_anchored in *.
  destruct r; step_handler; cbn; try exact H.
  - intros v Hv. rewrite map_app. apply in_or_app. left. now apply H.
  - intros v Hv. rewrite map_key_set; [now apply H | reflexivity].
  - intros v Hv. apply in_app_or in Hv. destruct Hv as [Hv | [<- | []]];
      [now apply H |].
    cbn. apply filter_hd_error in E2. destruct E2 as [Hin Hm].
    apply owner_filter_true in Hm. destruct Hm as [<- _]. now apply in_map.
  - intros v Hv. apply in_map_iff in Hv. destruct Hv as [v0 [<- Hv0]].
    destruct (Sql.eq _ _ v0); cbn; now apply H.
  - intros v Hv. apply filter_In in Hv. now apply H.
  - intros v Hv. apply filter_In in Hv. now apply H.
Qed.

(** X5: every stored version keeps naming a stored script: no call
    stores a version under a script id that is not stored, and none
    removes or renames a script. *)
Theorem versions_stay_anchored :
  forall (history : list Call) (w : World),
    versions_anchored (db w) -> versions_anchored (db (run history w)).
Proof.
  induction history as [| c rest IH]; intros w H; cbn; [exact H |].
  apply IH. unfold serve. now apply server_versions_anchored.
Qed.

Lemma versions_stay_anchored_witness :
  versions_anchored (db emptyWorld)
  /\ versions_anchored (db (run two_tenants emptyWorld)).
Proof.
  assert (H : versions_anchored (db emptyWorld)) by (intros v []).
  split; [exact H |].
  exact (versions_stay_anchored two_tenants emptyWorld H).
Defined.

(** ** getOwnedVersion *)

(** X7: [getOwnedVersion] changes no table.  It returns a stored version
    with the requested id under the requested script, that script being
    stored under the user; it throws "Script not found." exactly when the
    script is not stored under the user, whatever the version, and
    "Script version not found." when the script is but no version with
    that id is stored under it. *)
Theorem getOwnedVersion_outcomes :
  forall (versionId scriptId userId : string) (w : World),
    db (snd (getOwnedVersion versionId scriptId userId w)) = db w
    /\ match fst (getOwnedVersion versionId scriptId userId w) with
       | Ok v =>
           In v (tScriptVersions (db w))
           /\ ScriptVersions.id v = versionId
           /\ ScriptVersions.scriptId v = scriptId
           /\ script_owned userId scriptId (db w)
       | Throw e =>
           (e = script_not_found /\ ~ script_owned userId scriptId (db w))
           \/ (e = version_not_found
               /\ script_owned userId scriptId (db w)
               /\ ~ version_under scriptId versionId (db w))
       end.
Proof.
  intros versionId scriptId userId w. split; [step_handler; reflexivity |].
  step_handler.
  - apply filter_hd_error in E, E0. destruct E as [Hs Hsm], E0 as [Hv Hvm].
    apply owner_filter_true in Hsm. apply version_filter_true in Hvm.
    cbn in Hv. repeat split; try tauto. exists r. tauto.
  - right. apply filter_hd_error in E. destruct E as [Hs Hsm].
    apply owner_filter_true in Hsm. split; [reflexivity |].
    split; [exists r; tauto |].
    intros [v [Hv Hm]]. apply version_filter_true in Hm.
    pose proof (filter_hd_error_none _ _ E0 v Hv) as Hf. cbn in Hf. congruence.
  - left. split; [reflexivity |]. intros [s [Hs Hm]].
    apply owner_filter_true in Hm.
    pose proof (filter_hd_error_none _ _ E s Hs) as Hf. congruence.
Qed.

(** X8: a version stored under other scripts only is answered exactly as
    a version id that is stored nowhere: same outcome, same world after
    the call. *)
Theorem foreign_version_looks_absent :
  forall (versionId absent scriptId userId : string) (w : World),
    ~ version_under scriptId versionId (db w) ->
    (forall v, In v (tScriptVersions (db w)) -> ScriptVersions.id v <> absent) ->
    getOwnedVersion versionId scriptId userId w
    = getOwnedVersion absent scriptId userId w.
Proof.
  intros versionId absent scriptId userId w Hforeign Habsent.
  unfold getOwnedVersion, bind.
  destruct (getOwnedScript scriptId userId w) as [[s | e] w1] eqn:Es;
    [| reflexivity].
  assert (Hdb : db w1 = db w).
  { pose proof (getOwnedScript_db scriptId userId w) as H.
    rewrite Es in H. cbn in H. now subst w1. }
  unfold select, first. cbn. rewrite Hdb.
  rewrite !filter_none; [reflexivity | |].
  - intros v Hv. unfold Sql.and, Sql.eq.
    specialize (Habsent v Hv). apply String.eqb_neq in Habsent.
    now rewrite Habsent.
  - intros v Hv.
    destruct (Sql.and _ _ v) eqn:E; [| reflexivity].
    exfalso. apply Hforeign. exists v. split; [exact Hv |].
    now apply version_filter_true.
Qed.

Lemma foreign_version_looks_absent_witness :
  ~ version_under "s-bob" "v-alice" (db two_tenants_world)
  /\ (forall v, In v (tScriptVersions (db two_tenants_world)) ->
                ScriptVersions.id v <> "v-none")
  /\ getOwnedVersion "v-alice" "s-bob" "bob" two_tenants_world
     = getOwnedVersion "v-none" "s-bob" "bob" two_tenants_world.
Proof.
  assert (H1 : ~ version_under "s-bob" "v-alice" (db two_tenants_world)).
  { intros [v [Hv [Hid Hs]]]. cbn in Hv.
    destruct Hv as [<- | [<- | []]]; discriminate. }
  assert (H2 : forall v, In v (tScriptVersions (db two_tenants_world)) ->
                         ScriptVersions.id v <> "v-none").
  { intros v Hv. cbn in Hv. destruct Hv as [<- | [<- | []]]; discriminate. }
  split; [exact H1 |]. split; [exact H2 |].
  exact (foreign_version_looks_absent "v-alice" "v-none" "s-bob" "bob"
           two_tenants_world H1 H2).
Defined.

(** ** Writes stay with their owner *)

Lemma NoDup_map_key_eq {A} (key : A -> string) (l : list A) (a b : A) :
  NoDup (map key l) -> In a l -> In b l -> key a = key b -> a = b.
Proof.
  induction l as [| x l IH]; cbn; [contradiction |].
  intros H Ha Hb Hk. inversion H as [| k ks Hnin Hrest]; subst.
  destruct Ha as [<- | Ha], Hb as [<- | Hb]; auto.
  - exfalso. apply Hnin. rewrite Hk. now apply in_map.
  - exfalso. apply Hnin. rewrite <- Hk. now apply in_map.
Qed.

Ltac step_signed_in :=
  unfold_handlers; unfold signedIn; storage_facts; cbn [locals user fst snd];
  repeat (split_match; storage_facts; cbn [fst snd db trace sent]).

(** X9: with unique script ids, a successful [updateScript] rewrites no
    script but the one with the requested id, and that one is stored under
    the caller: every script of another user is kept as it is. *)
Theorem updateScript_keeps_other_owners :
  forall (i : updateScript.input) (u : string) (amb : Ambient) (w w' : World)
         (res : option Scripts.row),
    NoDup (map Scripts.id (tScripts (db w))) ->
    updateScript i (signedIn u) amb w = (Ok res, w') ->
    Forall2 (fun r r' => r' = r
                         \/ (Scripts.id r = updateScript.id i
                             /\ Scripts.userId r = u))
      (tScripts (db w)) (tScripts (db w')).
Proof.
  intros i u amb w w' res Hnd. step_signed_in; intros [= <- <-]; cbn.
  unfold updateScript.schema in E. apply object_refine_inr in E.
  destruct E as [-> _]. cbn in *.
  apply filter_hd_error in E0. destruct E0 as [Hr Hm].
  apply owner_filter_true in Hm. destruct Hm as [Hid Hu].
  apply Forall2_map_in. intros a Ha.
  destruct (Sql.eq Scripts.id (updateScript.id i) a) eqn:Ea; [| now left].
  right. unfold Sql.eq in Ea. apply String.eqb_eq in Ea.
  assert (a = r) by (apply (NoDup_map_key_eq Scripts.id _ a r Hnd Ha Hr);
                     congruence).
  subst a. tauto.
Qed.

Lemma updateScript_keeps_other_owners_witness :
  NoDup (map Scripts.id (tScripts (db two_tenants_world)))
  /\ exists res,
      updateScript only_status (signedIn "alice") (at_time 7 "")
        two_tenants_world
      = (Ok res, snd (updateScript only_status (signedIn "alice")
                        (at_time 7 "") two_tenants_world))
      /\ Forall2 (fun r r' => r' = r
                              \/ (Scripts.id r = "s-alice"
                                  /\ Scripts.userId r = "alice"))
           (tScripts (db two_tenants_world))
           (tScripts (db (snd (updateScript only_status (signedIn "alice")
                                 (at_time 7 "") two_tenants_world)))).
Proof.
  assert (Hnd : NoDup (map Scripts.id (tScripts (db two_tenants_world)))).
  { cbn. repeat constructor; cbn; intuition discriminate. }
  split; [exact Hnd |]. eexists. split; [reflexivity |].
  exact (updateScript_keeps_other_owners only_status "alice" (at_time 7 "")
           two_tenants_world _ _ Hnd Logic.eq_refl).
Defined.

(** X10: with unique version ids, a successful [updateScriptVersion]
    rewrites, and a successful [deleteScriptVersion] removes, no version
    but the one with the requested id, which is stored under the stated
    script, itself stored under the caller: versions of other scripts are
    kept as they are. *)
Theorem version_writes_stay_in_owned_script :
  forall (u : string) (amb : Ambient) (w w' : World),
    NoDup (map ScriptVersions.id (tScriptVersions (db w))) ->
    (forall (i : updateScriptVersion.input) res,
        updateScriptVersion i (signedIn u) amb w = (Ok res, w') ->
        Forall2 (fun v v' =>
                   v' = v
                   \/ (ScriptVersions.id v = updateScriptVersion.id i
                       /\ ScriptVersions.scriptId v = updateScriptVersion.scriptId i
                       /\ script_owned u (updateScriptVersion.scriptId i) (db w)))
          (tScriptVersions (db w)) (tScriptVersions (db w')))
    /\ (forall (i : deleteScriptVersion.input),
           deleteScriptVersion i (signedIn u) amb w = (Ok tt, w') ->
           incl (tScriptVersions (db w')) (tScriptVersions (db w))
           /\ forall v, In v (tScriptVersions (db w)) ->
                In v (tScriptVersions (db w'))
                \/ (ScriptVersions.id v = deleteScriptVersion.id i
                    /\ ScriptVersions.scriptId v = deleteScriptVersion.scriptId i
                    /\ script_owned u (deleteScriptVersion.scriptId i) (db w))).
Proof.
  intros u amb w w' Hnd. split.
  - intros i res. step_signed_in; intros [= <- <-]; cbn.
    unfold updateScriptVersion.schema in E. apply object_refine_inr in E.
    destruct E as [-> _]. cbn in *.
    apply filter_hd_error in E0, E1.
    destruct E0 as [Hs Hsm], E1 as [Hv Hvm].
    apply owner_filter_true in Hsm. apply version_filter_true in Hvm.
    apply Forall2_map_in. intros a Ha.
    destruct (Sql.eq ScriptVersions.id (updateScriptVersion.id i) a) eqn:Ea;
      [| now left].
    right. unfold Sql.eq in Ea. apply String.eqb_eq in Ea.
    assert (a = r0)
      by (apply (NoDup_map_key_eq ScriptVersions.id _ a r0 Hnd Ha Hv);
          destruct Hvm; congruence).
    subst a. repeat split; try tauto. exists r. tauto.
  - intros i. step_signed_in; intros [= <-]; cbn.
    unfold deleteScriptVersion.schema in E. apply object_inr in E.
    destruct E as [-> _]. cbn in *.
    apply filter_hd_error in E0, E1.
    destruct E0 as [Hs Hsm], E1 as [Hv Hvm].
    apply owner_filter_true in Hsm. apply version_filter_true in Hvm.
    split.
    + intros a Ha. now apply filter_In in Ha.
    + intros a Ha.
      destruct (Sql.eq ScriptVersions.id (deleteScriptVersion.id i) a) eqn:Ea.
      * right. unfold Sql.eq in Ea. apply String.eqb_eq in Ea.
        assert (a = r0)
          by (apply (NoDup_map_key_eq ScriptVersions.id _ a r0 Hnd Ha Hv);
              destruct Hvm; congruence).
        subst a. repeat split; try tauto. exists r. tauto.
      * left. apply filter_In. split; [exact Ha |]. now rewrite Ea.
Qed.

Lemma version_writes_stay_in_owned_script_witness :
  NoDup (map ScriptVersions.id (tScriptVersions (db two_tenants_world)))
  /\ (exists res,
         updateScriptVersion only_preferred (signedIn "alice") (at_time 7 "")
           two_tenants_world
         = (Ok res, snd (updateScriptVersion only_preferred (signedIn "alice")
                           (at_time 7 "") two_tenants_world))
         /\ Forall2 (fun v v' =>
                       v' = v
                       \/ (ScriptVersions.id v = "v-alice"
                           /\ ScriptVersions.scriptId v = "s-alice"
                           /\ script_owned "alice" "s-alice"
                                (db two_tenants_world)))
              (tScriptVersions (db two_tenants_world))
              (tScriptVersions
                 (db (snd (updateScriptVersion only_preferred
                             (signedIn "alice") (at_time 7 "")
                             two_tenants_world)))))
  /\ (deleteScriptVersion stored_version (signedIn "bob")
        (at_time 7 "") two_tenants_world
      = (Ok tt, after_bob_version)
      /\ incl (tScriptVersions (db after_bob_version))
              (tScriptVersions (db two_tenants_world))
      /\ forall v, In v (tScriptVersions (db two_tenants_world)) ->
           In v (tScriptVersions (db after_bob_version))
           \/ (ScriptVersions.id v = "v-bob"
               /\ ScriptVersions.scriptId v = "s-bob"
               /\ script_owned "bob" "s-bob" (db two_tenants_world))).
Proof.
  assert (Hnd : NoDup (map ScriptVersions.id
                         (tScriptVersions (db two_tenants_world)))).
  { cbn. repeat constructor; cbn; intuition discriminate. }
  split; [exact Hnd |]. split.
  - eexists. split; [reflexivity |].
    exact (proj1 (version_writes_stay_in_owned_script "alice" (at_time 7 "")
                    two_tenants_world _ Hnd) only_preferred _ Logic.eq_refl).
  - split; [reflexivity |].
    exact (proj2 (version_writes_stay_in_owned_script "bob" (at_time 7 "")
                    two_tenants_world after_bob_version Hnd)
                 stored_version Logic.eq_refl).
Defined.

(** ** Created rows are listed *)

Lemma createScript_stores (i : createScript.input) (u : string)
  (amb : Ambient) (w w' : World) (res : option Scripts.row) :
  createScript i (signedIn u) amb w = (Ok res, w') ->
  let s := {| Scripts.id := randomUUID amb;
              Scripts.userId := u;
              Scripts.title := createScript.title i;
              Scripts.scriptType := createScript.scriptType i;
              Scripts.formatStandard := createScript.formatStandard i;
              Scripts.logline := createScript.logline i;
              Scripts.status := createScript.status i;
              Scripts.notes := createScript.notes i;
              Scripts.createdAt := now amb;
              Scripts.updatedAt := now amb |} in
  res = Some s
  /\ db w' = with_rows ScriptsT (tScripts (db w) ++ [s]) (db w).
Proof.
  step_signed_in; intros [= <- <-].
  unfold createScript.schema in E. apply object_inr in E.
  destruct E as [-> _]. split; reflexivity.
Qed.

Lemma listScripts_lists (v : string) (amb : Ambient) (w : World) :
  fst (listScripts tt (signedIn v) amb w)
  = Ok (listing (filter (Sql.eq Scripts.userId v) (tScripts (db w)))).
Proof.
  unfold listScripts, defineAction, listScripts.handler, bind, select.
  cbn. now rewrite all_readable_scripts.
Qed.

(** X11: a successful [createScript] stores one script, owned by the
    caller, with the given title and with createdAt and updatedAt both at
    the clock reading of the call, and touches no other table.  From then
    on [listScripts] returns it to its owner, after the scripts the owner
    was listed before, and the listing of any other user is as before.
    Stated for script text free of NUL characters, which the client reads
    back as stored. *)
Theorem created_script_is_listed :
  forall (i : createScript.input) (u : string) (amb : Ambient) (w w' : World)
         (res : option Scripts.row),
    createScript i (signedIn u) amb w = (Ok res, w') ->
    forallb plain_script (tScripts (db w')) = true ->
    exists s,
      res = Some s
      /\ Scripts.id s = randomUUID amb
      /\ Scripts.userId s = u
      /\ Scripts.title s = createScript.title i
      /\ Scripts.createdAt s = now amb
      /\ Scripts.updatedAt s = now amb
      /\ tScripts (db w') = tScripts (db w) ++ [s]
      /\ tScriptVersions (db w') = tScriptVersions (db w)
      /\ tScriptElements (db w') = tScriptElements (db w)
      /\ forall (v : string) (amb2 : Ambient),
          exists items,
            fst (listScripts tt (signedIn v) amb2 w) = Ok (listing items)
            /\ fst (listScripts tt (signedIn v) amb2 w')
               = Ok (listing (items ++ if (u =? v)%string then [s] else [])).
Proof.
  intros i u amb w w' res Hc _. apply createScript_stores in Hc.
  cbv zeta in Hc. destruct Hc as [-> Hdb].
  eexists. split; [reflexivity |]. do 5 (split; [reflexivity |]).
  do 3 (split; [now rewrite Hdb |]).
  intros v amb2. eexists. split; [exact (listScripts_lists v amb2 w) |].
  rewrite (listScripts_lists v amb2 w'), Hdb. cbn. rewrite filter_app. cbn.
  unfold Sql.eq at 2. cbn. reflexivity.
Qed.


Lemma getOwnedVersion_reads_chain (versionId scriptId userId : string)
  (w1 w2 : World) :
  tScripts (db w1) = tScripts (db w2) ->
  tScriptVersions (db w1) = tScriptVersions (db w2) ->
  fst (getOwnedVersion versionId scriptId userId w1)
  = fst (getOwnedVersion versionId scriptId userId w2).
Proof.
  intros Hs Hv. unfold_handlers. cbn. rewrite Hs.
  destruct (hd_error _); cbn; [| reflexivity]. storage_facts. cbn.
  rewrite Hv. now destruct (hd_error _).
Qed.




Lemma createScriptElement_stores (i : createScriptElement.input) (u : string)
  (amb : Ambient) (w w' : World) (res : option ScriptElements.row) :
  createScriptElement i (signedIn u) amb w = (Ok res, w') ->
  let e := {| ScriptElements.id := randomUUID amb;
              ScriptElements.scriptVersionId :=
                createScriptElement.scriptVersionId i;
              ScriptElements.orderIndex := createScriptElement.orderIndex i;
              ScriptElements.elementType := createScriptElement.elementType i;
              ScriptElements.characterName :=
                createScriptElement.characterName i;
              ScriptElements.content := createScriptElement.content i;
              ScriptElements.createdAt := now amb |} in
  res = Some e
  /\ db w' = with_rows ScriptElementsT (tScriptElements (db w) ++ [e]) (db w)
  /\ min1 (createScriptElement.scriptId i) = true
  /\ min1 (createScriptElement.scriptVersionId i) = true
  /\ client_reads (createScriptElement.orderIndex i) = true
  /\ exists v w1,
      getOwnedVersion (createScriptElement.scriptVersionId i)
        (createScriptElement.scriptId i) u w = (Ok v, w1).
Proof.
  unfold createScriptElement, defineAction.
  destruct (createScriptElement.schema i) as [issue | parsed] eqn:E;
    [discriminate |].
  unfold createScriptElement.schema in E. apply object_inr in E.
  destruct E as [-> Hf]. rewrite !andb_true_iff in Hf.
  destruct Hf as [[[Hs Hv] _] _].
  unfold createScriptElement.handler, bind at 1. cbn [requireUser signedIn locals user].
  unfold ret at 1. unfold bind at 1.
  destruct (getOwnedVersion _ _ _ w) as [[v | e] w1] eqn:Ev; [| discriminate].
  pose proof (getOwnedVersion_ok _ _ _ _ _ _ Ev) as [Hdb _].
  unfold bind, insert, ret, first, all_readable. cbn. rewrite Hdb.
  destruct (existsb _ _); [discriminate |]. rewrite andb_true_r.
  destruct (client_reads _) eqn:Er; intros [= <- <-]; cbn.
  repeat split; try reflexivity; try assumption. eauto.
Qed.

Lemma listScriptElements_outcome (i : listScriptElements.input) (u : string)
  (amb : Ambient) (w : World) (v : ScriptVersions.row) :
  min1 (listScriptElements.scriptId i) = true ->
  min1 (listScriptElements.scriptVersionId i) = true ->
  fst (getOwnedVersion (listScriptElements.scriptVersionId i)
         (listScriptElements.scriptId i) u w) = Ok v ->
  fst (listScriptElements i (signedIn u) amb w)
  = if all_readable ScriptElementsT
         (filter (Sql.eq ScriptElements.scriptVersionId
                    (listScriptElements.scriptVersionId i))
                 (tScriptElements (db w)))
    then Ok (listing
               (filter (Sql.eq ScriptElements.scriptVersionId
                          (listScriptElements.scriptVersionId i))
                       (tScriptElements (db w))))
    else Throw unreadable.
Proof.
  intros Hs Hv Hown.
  unfold listScriptElements, defineAction, listScriptElements.schema, object.
  rewrite Hs, Hv. cbn [andb].
  unfold listScriptElements.handler, bind at 1.
  cbn [requireUser signedIn locals user]. unfold ret at 1. unfold bind at 1.
  destruct (getOwnedVersion _ _ _ w) as [[v0 | e] w2] eqn:Ev;
    [| discriminate].
  pose proof (getOwnedVersion_ok _ _ _ _ _ _ Ev) as [Hdb _].
  unfold bind, select, ret. cbn. rewrite Hdb.
  now destruct (all_readable _ _).
Qed.


(** X13: a successful [createScriptElement] stores one element under the
    stated version and answers with it.  From then on
    [listScriptElements] of that script and version returns it to the
    caller after the elements it listed before; when the listing threw
    before, on an element the client cannot read back, it throws the same
    error after.  Stated for element text free of NUL characters, which
    the client reads back as stored. *)
Theorem created_element_is_listed :
  forall (i : createScriptElement.input) (u : string) (amb : Ambient)
         (w w' : World) (res : option ScriptElements.row),
    createScriptElement i (signedIn u) amb w = (Ok res, w') ->
    forallb plain_element (tScriptElements (db w')) = true ->
    exists e,
      res = Some e
      /\ ScriptElements.id e = randomUUID amb
      /\ ScriptElements.scriptVersionId e = createScriptElement.scriptVersionId i
      /\ ScriptElements.orderIndex e = createScriptElement.orderIndex i
      /\ ScriptElements.content e = createScriptElement.content i
      /\ tScriptElements (db w') = tScriptElements (db w) ++ [e]
      /\ forall (amb2 : Ambient),
          let j := {| listScriptElements.scriptId :=
                        createScriptElement.scriptId i;
                      listScriptElements.scriptVersionId :=
                        createScriptElement.scriptVersionId i |} in
          match fst (listScriptElements j (signedIn u) amb2 w) with
          | Ok (items, _) =>
              fst (listScriptElements j (signedIn u) amb2 w')
              = Ok (listing (items ++ [e]))
          | Throw err =>
              fst (listScriptElements j (signedIn u) amb2 w') = Throw err
          end.
Proof.
  intros i u amb w w' res Hc _. apply createScriptElement_stores in Hc.
  cbv zeta in Hc. destruct Hc as [-> [Hdb [Hs [Hv [Hr [v [w1 Hown]]]]]]].
  eexists. split; [reflexivity |]. do 4 (split; [reflexivity |]).
  split; [now rewrite Hdb |].
  intros amb2 j.
  assert (Hw : fst (getOwnedVersion (listScriptElements.scriptVersionId j)
                      (listScriptElements.scriptId j) u w) = Ok v)
    by (cbn; now rewrite Hown).
  assert (Hw' : fst (getOwnedVersion (listScriptElements.scriptVersionId j)
                       (listScriptElements.scriptId j) u w') = Ok v).
  { rewrite <- Hw. apply getOwnedVersion_reads_chain; now rewrite Hdb. }
  rewrite (listScriptElements_outcome j u amb2 w v Hs Hv Hw).
  rewrite (listScriptElements_outcome j u amb2 w' v Hs Hv Hw'), Hdb.
  cbn [tScriptElements with_rows ScriptElementsT
       listScriptElements.scriptVersionId j].
  match goal with
  | |- context [filter ?p (?l ++ [?x])] =>
      assert (Hf : filter p (l ++ [x]) = filter p l ++ [x])
        by (rewrite filter_app; cbn; unfold Sql.eq; cbn;
            now rewrite String.eqb_refl);
      rewrite !Hf
  end.
  unfold all_readable. rewrite forallb_app.
  cbn [forallb readable ScriptElementsT ScriptElements.orderIndex].
  rewrite Hr. cbn [andb]. rewrite andb_true_r.
  destruct (forallb _ _); reflexivity.
Qed.

(** ** Requests that do not resolve *)

Lemma getOwnedVersion_cases (versionId scriptId userId : string) (w : World) :
  (exists v,
      getOwnedVersion versionId scriptId userId w
      = (Ok v, after_reading [Select TScripts; Select TScriptVersions] w)
      /\ chain_resolves userId scriptId versionId (db w))
  \/ (getOwnedVersion versionId scriptId userId w
      = (Throw script_not_found, after_reading [Select TScripts] w)
      /\ ~ script_owned userId scriptId (db w))
  \/ (getOwnedVersion versionId scriptId userId w
      = (Throw version_not_found,
         after_reading [Select TScripts; Select TScriptVersions] w)
      /\ script_owned userId scriptId (db w)
      /\ ~ version_under scriptId versionId (db w)).
Proof.
  unfold after_reading. step_handler;
    unfold sent; cbn [db trace]; rewrite <- ?app_assoc; cbn [app].
  - left. eexists. split; [reflexivity |].
    apply filter_hd_error in E, E0. destruct E as [Hs Hsm], E0 as [Hv Hvm].
    apply owner_filter_true in Hsm. apply version_filter_true in Hvm.
    split; eauto.
  - right. right. split; [reflexivity |].
    apply filter_hd_error in E. destruct E as [Hs Hsm].
    apply owner_filter_true in Hsm. split; [exists r; tauto |].
    intros [v [Hv Hm]]. apply version_filter_true in Hm.
    pose proof (filter_hd_error_none _ _ E0 v Hv) as Hf. cbn in Hf. congruence.
  - right. left. split; [reflexivity |]. intros [s [Hs Hm]].
    apply owner_filter_true in Hm.
    pose proof (filter_hd_error_none _ _ E s Hs) as Hf. congruence.
Qed.

Lemma getOwnedVersion_no_script (versionId scriptId userId : string) (w : World) :
  ~ script_owned userId scriptId (db w) ->
  getOwnedVersion versionId scriptId userId w
  = (Throw script_not_found, after_reading [Select TScripts] w).
Proof.
  intros H.
  destruct (getOwnedVersion_cases versionId scriptId userId w)
    as [[v [_ [Hs _]]] | [[E _] | [_ [Hs _]]]]; tauto.
Qed.

Lemma getOwnedVersion_no_version (versionId scriptId userId : string) (w : World) :
  script_owned userId scriptId (db w) ->
  ~ version_under scriptId versionId (db w) ->
  getOwnedVersion versionId scriptId userId w
  = (Throw version_not_found,
     after_reading [Select TScripts; Select TScriptVersions] w).
Proof.
  intros Hs Hv.
  destruct (getOwnedVersion_cases versionId scriptId userId w)
    as [[v [_ [_ Hv']]] | [[_ Hs'] | [E _]]]; tauto.
Qed.

Lemma getOwnedVersion_resolved (versionId scriptId userId : string) (w : World) :
  chain_resolves userId scriptId versionId (db w) ->
  exists v, getOwnedVersion versionId scriptId userId w
            = (Ok v, after_reading [Select TScripts; Select TScriptVersions] w).
Proof.
  intros [Hs Hv].
  destruct (getOwnedVersion_cases versionId scriptId userId w)
    as [[v [E _]] | [[_ Hs'] | [_ [_ Hv']]]]; [eauto | tauto | tauto].
Qed.

Lemma getOwnedScript_not_owned (scriptId userId : string) (w : World) :
  ~ script_owned userId scriptId (db w) ->
  getOwnedScript scriptId userId w
  = (Throw script_not_found, after_reading [Select TScripts] w).
Proof.
  intros H. apply getOwnedScript_missing. intros r Hr Hm. apply H.
  exists r. tauto.
Qed.

Ltac parsed_input H :=
  match goal with
  | |- context [match ?s with inl _ => _ | inr _ => _ end] =>
      let issue := fresh "issue" in
      let parsed := fresh "parsed" in
      let E := fresh "E" in
      destruct s as [issue | parsed] eqn:E; [discriminate H |];
      unfold createScriptVersion.schema, updateScript.schema,
        updateScriptVersion.schema, deleteScriptVersion.schema,
        listScriptVersions.schema, createScriptElement.schema,
        updateScriptElement.schema, deleteScriptElement.schema,
        listScriptElements.schema in E;
      (apply object_inr in E || apply object_refine_inr in E);
      destruct E as [-> _]
  end.

Ltac enter_handler :=
  unfold respond, updateScript.handler, createScriptVersion.handler,
    updateScriptVersion.handler, deleteScriptVersion.handler,
    listScriptVersions.handler, createScriptElement.handler,
    updateScriptElement.handler, deleteScriptElement.handler,
    listScriptElements.handler, bind;
  cbn [requireUser signedIn locals user ret User.id
       listScriptVersions.scriptId].

(** X14: a signed-in caller who names a script that is not stored under
    them gets "Script not found." from every action that names a script,
    after a single select on the Scripts table and with the database
    untouched, whether or not the script is stored under someone else. *)
Theorem unowned_script_is_not_found :
  forall (r : Request) (scriptId u : string) (amb : Ambient) (w : World),
    named_script r = Some scriptId ->
    valid r = true ->
    ~ script_owned u scriptId (db w) ->
    server r (signedIn u) amb w
    = (Throw script_not_found, after_reading [Select TScripts] w).
Proof.
  intros r scriptId u amb w Hnamed Hvalid Hno.
  destruct r; cbn in Hnamed; try discriminate Hnamed;
    injection Hnamed as <-; cbn [valid] in Hvalid; unfold accepted in Hvalid;
    cbn [server];
    unfold updateScript, createScriptVersion, updateScriptVersion,
      deleteScriptVersion, listScriptVersions, createScriptElement,
      updateScriptElement, deleteScriptElement, listScriptElements,
      defineAction;
    parsed_input Hvalid; enter_handler;
    first [ rewrite (getOwnedScript_not_owned _ _ _ Hno)
          | rewrite (getOwnedVersion_no_script _ _ _ _ Hno) ];
    reflexivity.
Qed.

(** X15: a signed-in caller who names one of their scripts together with
    a version id that is not stored under that script gets "Script
    version not found." from every action that names a version, after two
    selects and with the database untouched, whether or not the version
    is stored under another script. *)
Theorem unresolved_version_is_not_found :
  forall (r : Request) (scriptId versionId u : string) (amb : Ambient)
         (w : World),
    named_chain r = Some (scriptId, versionId) ->
    valid r = true ->
    script_owned u scriptId (db w) ->
    ~ version_under scriptId versionId (db w) ->
    server r (signedIn u) amb w
    = (Throw version_not_found,
       after_reading [Select TScripts; Select TScriptVersions] w).
Proof.
  intros r scriptId versionId u amb w Hnamed Hvalid Hs Hno.
  destruct r; cbn in Hnamed; try discriminate Hnamed;
    injection Hnamed as <- <-; cbn [valid] in Hvalid; unfold accepted in Hvalid;
    cbn [server];
    unfold updateScriptVersion, deleteScriptVersion, createScriptElement,
      updateScriptElement, deleteScriptElement, listScriptElements,
      defineAction;
    parsed_input Hvalid; enter_handler;
    rewrite (getOwnedVersion_no_version _ _ _ _ Hs Hno); reflexivity.
Qed.

(** X16: [updateScriptElement] checks that the element exists before it
    writes: when the chain resolves but no element has the requested id,
    it throws "Script element not found." after three selects, sends no
    update and leaves the database untouched. *)
Theorem updateScriptElement_of_missing_element :
  forall (i : updateScriptElement.input) (u : string) (amb : Ambient)
         (w : World),
    valid (UpdateScriptElement i) = true ->
    chain_resolves u (updateScriptElement.scriptId i)
      (updateScriptElement.scriptVersionId i) (db w) ->
    (forall e, In e (tScriptElements (db w)) ->
               ScriptElements.id e <> updateScriptElement.id i) ->
    updateScriptElement i (signedIn u) amb w
    = (Throw element_not_found,
       after_reading
         [Select TScripts; Select TScriptVersions; Select TScriptElements] w).
Proof.
  intros i u amb w Hvalid Hchain Hnone.
  cbn [valid] in Hvalid. unfold accepted in Hvalid.
  unfold updateScriptElement, defineAction. parsed_input Hvalid.
  enter_handler.
  destruct (getOwnedVersion_resolved _ _ _ _ Hchain) as [v ->].
  unfold select, first, throw, after_reading, sent. cbn.
  rewrite filter_none.
  - cbn. now rewrite <- app_assoc.
  - intros e He. unfold Sql.eq. apply String.eqb_neq. now apply Hnone.
Qed.

(** ** Deleting a version *)

Lemma existsb_false_in {A} (f : A -> bool) (l : list A) (a : A) :
  existsb f l = false -> In a l -> f a = false.
Proof.
  intros H Hin. destruct (f a) eqn:E; [| reflexivity].
  assert (Ht : existsb f l = true) by (apply existsb_exists; eauto).
  congruence.
Qed.

(** X6: [deleteScriptVersion] never leaves an element without its
    version.  While an element names the version, the owner's delete
    throws the storage engine's foreign-key error and removes nothing;
    a delete that succeeds found no element naming the version, and
    removes no element and no script. *)
Theorem referenced_version_is_not_deleted :
  (forall (i : deleteScriptVersion.input) (ctx : Context) (amb : Ambient)
          (w w' : World),
      deleteScriptVersion i ctx amb w = (Ok tt, w') ->
      (forall e, In e (tScriptElements (db w)) ->
                 ScriptElements.scriptVersionId e <> deleteScriptVersion.id i)
      /\ tScriptElements (db w') = tScriptElements (db w)
      /\ tScripts (db w') = tScripts (db w))
  /\ (forall (i : deleteScriptVersion.input) (u : string) (amb : Ambient)
             (w : World) (e : ScriptElements.row),
         valid (DeleteScriptVersion i) = true ->
         chain_resolves u (deleteScriptVersion.scriptId i)
           (deleteScriptVersion.id i) (db w) ->
         In e (tScriptElements (db w)) ->
         ScriptElements.scriptVersionId e = deleteScriptVersion.id i ->
         exists err,
           deleteScriptVersion i (signedIn u) amb w
           = (Throw err,
              after_reading
                [Select TScripts; Select TScriptVersions; Delete TScriptVersions]
                w)
           /\ code err = INTERNAL_SERVER_ERROR).
Proof.
  split.
  - intros i ctx amb w w'. step_handler; intros [= <-]; cbn.
    unfold deleteScriptVersion.schema in E. apply object_inr in E.
    destruct E as [-> _]. cbn in *.
    split; [| split; reflexivity].
    apply Nat.eqb_neq in E5. apply filter_length_pos in E5.
    destruct E5 as [v [Hv Hm]]. unfold Sql.eq in Hm. apply String.eqb_eq in Hm.
    assert (Hin : In v (filter (Sql.eq ScriptVersions.id (deleteScriptVersion.id i))
                          (tScriptVersions (db w)))).
    { apply filter_In. split; [exact Hv |]. unfold Sql.eq.
      now apply String.eqb_eq. }
    pose proof (existsb_false_in _ _ v E4 Hin) as Href. cbn in Href.
    intros e He Heq.
    pose proof (existsb_false_in _ _ e Href He) as Hne. cbn in Hne.
    rewrite Heq, Hm, String.eqb_refl in Hne. discriminate.
  - intros i u amb w e Hvalid Hchain He Heq.
    cbn [valid] in Hvalid. unfold accepted in Hvalid.
    unfold deleteScriptVersion, defineAction. parsed_input Hvalid.
    enter_handler.
    destruct (getOwnedVersion_resolved _ _ _ _ Hchain) as [v0 ->].
    destruct Hchain as [_ [v [Hv [Hid _]]]].
    assert (Href : any_referenced ScriptVersionsT (db w)
                     (filter (Sql.eq ScriptVersions.id (deleteScriptVersion.id i))
                             (tScriptVersions (db w))) = true).
    { apply existsb_exists. exists v. split.
      - apply filter_In. split; [exact Hv |]. unfold Sql.eq.
        now apply String.eqb_eq.
      - cbn. apply existsb_exists. exists e. split; [exact He |].
        rewrite Heq, Hid. apply String.eqb_refl. }
    exists foreign_key_failed. split; [| reflexivity].
    unfold delete, after_reading, sent. cbn. rewrite Href. cbn.
    now rewrite <- app_assoc.
Qed.

Lemma referenced_version_is_not_deleted_witness :
  (deleteScriptVersion stored_version (signedIn "bob") (at_time 7 "")
     two_tenants_world
   = (Ok tt, after_bob_version)
   /\ (forall e, In e (tScriptElements (db two_tenants_world)) ->
                  ScriptElements.scriptVersionId e <> "v-bob")
   /\ tScriptElements (db after_bob_version)
      = tScriptElements (db two_tenants_world)
   /\ tScripts (db after_bob_version) = tScripts (db two_tenants_world))
  /\ (valid (DeleteScriptVersion deletes_alice_version) = true
      /\ chain_resolves "alice" "s-alice" "v-alice" (db two_tenants_world)
      /\ In alice_element (tScriptElements (db two_tenants_world))
      /\ ScriptElements.scriptVersionId alice_element = "v-alice"
      /\ exists err,
          deleteScriptVersion deletes_alice_version (signedIn "alice")
            (at_time 7 "") two_tenants_world
          = (Throw err,
             after_reading
               [Select TScripts; Select TScriptVersions; Delete TScriptVersions]
               two_tenants_world)
          /\ code err = INTERNAL_SERVER_ERROR).
Proof.
  split.
  - split; [reflexivity |].
    exact (proj1 referenced_version_is_not_deleted stored_version
             (signedIn "bob") (at_time 7 "") two_tenants_world
             after_bob_version Logic.eq_refl).
  - assert (Hc : chain_resolves "alice" "s-alice" "v-alice"
                   (db two_tenants_world)).
    { split; eexists; (split; [left; reflexivity | split; reflexivity]). }
    assert (He : In alice_element (tScriptElements (db two_tenants_world)))
      by (left; reflexivity).
    split; [reflexivity |]. split; [exact Hc |]. split; [exact He |].
    split; [reflexivity |].
    exact (proj2 referenced_version_is_not_deleted deletes_alice_version
             "alice" (at_time 7 "") two_tenants_world alice_element
             Logic.eq_refl Hc He Logic.eq_refl).
Defined.

(** ** An element the client cannot read back *)




(** ** What a success returns *)




(** ** Deleting an element *)

Lemma filter_true_all {A} (p : A -> bool) (l : list A) :
  (forall a, In a l -> p a = true) -> filter p l = l.
Proof.
  induction l as [| x l IH]; cbn; [reflexivity |].
  intros H. rewrite (H x (or_introl Logic.eq_refl)). f_equal.
  apply IH. intros a Ha. apply H. now right.
Qed.

(** X18: a successful [deleteScriptElement] removes the elements with
    the requested id and nothing else: the other elements stay, in their
    order, and no script or version is touched; with unique element ids
    exactly one row is gone. *)
Theorem deleteScriptElement_removes_that_id_only :
  forall (i : deleteScriptElement.input) (ctx : Context) (amb : Ambient)
         (w w' : World),
    deleteScriptElement i ctx amb w = (Ok tt, w') ->
    tScriptElements (db w')
    = filter (fun e => negb (ScriptElements.id e =? deleteScriptElement.id i)%string)
        (tScriptElements (db w))
    /\ tScripts (db w') = tScripts (db w)
    /\ tScriptVersions (db w') = tScriptVersions (db w)
    /\ (NoDup (map ScriptElements.id (tScriptElements (db w))) ->
        S (length (tScriptElements (db w'))) = length (tScriptElements (db w))).
Proof.
  intros i ctx amb w w'. step_handler; intros [= <-]; cbn.
  unfold deleteScriptElement.schema in E. apply object_inr in E.
  destruct E as [-> _]. cbn in *.
  do 3 (split; [reflexivity |]).
  intros Hnd. apply Nat.eqb_neq in E4. unfold Sql.eq in *.
  revert E4 Hnd. generalize (tScriptElements (db w)) as els.
  induction els as [| x els IH]; cbn; [congruence |].
  intros Hpos Hnd. inversion Hnd as [| k ks Hnin Hrest]; subst.
  destruct (ScriptElements.id x =? deleteScriptElement.id i)%string eqn:Ex; cbn.
  - f_equal. f_equal. apply filter_true_all. intros y Hy.
    apply negb_true_iff. apply String.eqb_neq. intros Heq.
    apply String.eqb_eq in Ex. apply Hnin. rewrite Ex, <- Heq.
    now apply in_map.
  - f_equal. apply IH; assumption.
Qed.

(** ** What a listing shows *)



(** ** The further properties at work on the worked history *)

Lemma created_script_is_listed_witness :
  createScript (titled "Heist") (signedIn "alice") (at_time 1 "s-alice")
    emptyWorld
  = (Ok (Some alice_script), after_heist)
  /\ forallb plain_script (tScripts (db after_heist)) = true
  /\ exists s,
      Some alice_script = Some s
      /\ Scripts.id s = "s-alice"
      /\ Scripts.userId s = "alice"
      /\ Scripts.title s = "Heist"
      /\ Scripts.createdAt s = 1
      /\ Scripts.updatedAt s = 1
      /\ tScripts (db after_heist) = tScripts (db emptyWorld) ++ [s]
      /\ tScriptVersions (db after_heist) = tScriptVersions (db emptyWorld)
      /\ tScriptElements (db after_heist) = tScriptElements (db emptyWorld)
      /\ forall (v : string) (amb2 : Ambient),
          exists items,
            fst (listScripts tt (signedIn v) amb2 emptyWorld)
            = Ok (listing items)
            /\ fst (listScripts tt (signedIn v) amb2 after_heist)
               = Ok (listing
                       (items ++ if ("alice" =? v)%string then [s] else [])).
Proof.
  split; [reflexivity |]. split; [reflexivity |].
  exact (created_script_is_listed (titled "Heist") "alice"
           (at_time 1 "s-alice") emptyWorld after_heist (Some alice_script)
           Logic.eq_refl Logic.eq_refl).
Defined.


Lemma created_element_is_listed_witness :
  exists e,
    createScriptElement (heading "s-alice" "v-alice" "INT. BANK")
      (signedIn "alice") (at_time 3 "e-alice") heist_world
    = (Ok (Some e), after_heading)
    /\ forallb plain_element (tScriptElements (db after_heading)) = true
    /\ ScriptElements.content e = "INT. BANK"
    /\ fst (listScriptElements lists_alice_version (signedIn "alice")
              (at_time 4 "") heist_world) = Ok ([], 0%nat)
    /\ fst (listScriptElements lists_alice_version (signedIn "alice")
              (at_time 4 "") after_heading) = Ok ([e], 1%nat).
Proof.
  destruct (created_element_is_listed (heading "s-alice" "v-alice" "INT. BANK")
              "alice" (at_time 3 "e-alice") heist_world after_heading _
              Logic.eq_refl Logic.eq_refl)
    as [e [Hres [_ [_ [_ [Hcontent [_ Hlist]]]]]]].
  exists e. split; [now rewrite <- Hres |]. split; [reflexivity |].
  split; [exact Hcontent |]. split; [reflexivity |].
  exact (Hlist (at_time 4 "")).
Defined.

Lemma unowned_script_is_not_found_witness :
  named_script (ListScriptElements bob_lists_alice_elements) = Some "s-alice"
  /\ valid (ListScriptElements bob_lists_alice_elements) = true
  /\ ~ script_owned "bob" "s-alice" (db two_tenants_world)
  /\ server (ListScriptElements bob_lists_alice_elements) (signedIn "bob")
       (at_time 7 "") two_tenants_world
     = (Throw script_not_found, after_reading [Select TScripts] two_tenants_world).
Proof.
  assert (H : ~ script_owned "bob" "s-alice" (db two_tenants_world)).
  { intros [s [Hs [Hid Hu]]]. cbn in Hs.
    destruct Hs as [<- | [<- | []]]; discriminate. }
  split; [reflexivity |]. split; [reflexivity |]. split; [exact H |].
  exact (unowned_script_is_not_found
           (ListScriptElements bob_lists_alice_elements) "s-alice" "bob"
           (at_time 7 "") two_tenants_world Logic.eq_refl Logic.eq_refl H).
Defined.

Lemma unresolved_version_is_not_found_witness :
  named_chain (ListScriptElements bob_lists_alice_version_as_his)
  = Some ("s-bob", "v-alice")
  /\ valid (ListScriptElements bob_lists_alice_version_as_his) = true
  /\ script_owned "bob" "s-bob" (db two_tenants_world)
  /\ ~ version_under "s-bob" "v-alice" (db two_tenants_world)
  /\ server (ListScriptElements bob_lists_alice_version_as_his)
       (signedIn "bob") (at_time 7 "") two_tenants_world
     = (Throw version_not_found,
        after_reading [Select TScripts; Select TScriptVersions]
          two_tenants_world).
Proof.
  assert (Hs : script_owned "bob" "s-bob" (db two_tenants_world)).
  { eexists. split; [right; left; reflexivity | split; reflexivity]. }
  assert (Hv : ~ version_under "s-bob" "v-alice" (db two_tenants_world)).
  { intros [v [Hv [Hid Hsid]]]. cbn in Hv.
    destruct Hv as [<- | [<- | []]]; discriminate. }
  split; [reflexivity |]. split; [reflexivity |].
  split; [exact Hs |]. split; [exact Hv |].
  exact (unresolved_version_is_not_found
           (ListScriptElements bob_lists_alice_version_as_his)
           "s-bob" "v-alice" "bob" (at_time 7 "") two_tenants_world
           Logic.eq_refl Logic.eq_refl Hs Hv).
Defined.

Lemma updateScriptElement_of_missing_element_witness :
  valid (UpdateScriptElement rewrites_missing_element) = true
  /\ chain_resolves "alice" "s-alice" "v-alice" (db two_tenants_world)
  /\ (forall e, In e (tScriptElements (db two_tenants_world)) ->
                ScriptElements.id e <> "e-none")
  /\ updateScriptElement rewrites_missing_element (signedIn "alice")
       (at_time 7 "") two_tenants_world
     = (Throw element_not_found,
        after_reading
          [Select TScripts; Select TScriptVersions; Select TScriptElements]
          two_tenants_world).
Proof.
  assert (Hc : chain_resolves "alice" "s-alice" "v-alice"
                 (db two_tenants_world)).
  { split; eexists; (split; [left; reflexivity | split; reflexivity]). }
  assert (He : forall e, In e (tScriptElements (db two_tenants_world)) ->
                         ScriptElements.id e <> "e-none").
  { intros e Hin. cbn in Hin. destruct Hin as [<- | []]. discriminate. }
  split; [reflexivity |]. split; [exact Hc |]. split; [exact He |].
  exact (updateScriptElement_of_missing_element rewrites_missing_element
           "alice" (at_time 7 "") two_tenants_world Logic.eq_refl Hc He).
Defined.


Lemma deleteScriptElement_removes_that_id_only_witness :
  deleteScriptElement stored_element (signedIn "alice") (at_time 7 "")
    two_tenants_world
  = (Ok tt, snd (deleteScriptElement stored_element (signedIn "alice")
                   (at_time 7 "") two_tenants_world))
  /\ tScriptElements
       (db (snd (deleteScriptElement stored_element (signedIn "alice")
                   (at_time 7 "") two_tenants_world)))
     = filter (fun e => negb (ScriptElements.id e =? "e-alice")%string)
         (tScriptElements (db two_tenants_world))
  /\ tScripts (db (snd (deleteScriptElement stored_element (signedIn "alice")
                          (at_time 7 "") two_tenants_world)))
     = tScripts (db two_tenants_world)
  /\ tScriptVersions
       (db (snd (deleteScriptElement stored_element (signedIn "alice")
                   (at_time 7 "") two_tenants_world)))
     = tScriptVersions (db two_tenants_world)
  /\ (NoDup (map ScriptElements.id (tScriptElements (db two_tenants_world))) ->
      S (length (tScriptElements
                   (db (snd (deleteScriptElement stored_element
                               (signedIn "alice") (at_time 7 "")
                               two_tenants_world)))))
      = length (tScriptElements (db two_tenants_world))).
Proof.
  split; [reflexivity |].
  exact (deleteScriptElement_removes_that_id_only stored_element
           (signedIn "alice") (at_time 7 "") two_tenants_world _
           Logic.eq_refl).
Defined.
